(** * Daily active / returning / new users across monthly shards

    A shallow embedding of [scripts/develop/dau_dru_dnu.py] and the
    properties of its aggregation loop.

    Python values are modelled as they reach the script: a day object is a
    dictionary from keys to JSON values, identifier sets are finite sets of
    strings, Python integers are [Z], and an exception is an explicit
    outcome.  The local variables [seen_subaccounts] and [result] of
    [count_dau_returning_new_users_across_files] are threaded through the
    loops as a record, so that what they hold when an exception leaves a
    loop can be stated.

    The fetcher class of [scripts/classes/extract_data_methods.py] is
    embedded in the module [JSONFetcher]: the answers of the server are a
    parameter of its methods, and the files it writes are an explicit
    state. *)

From Stdlib Require Import ZArith Ascii String Sorted.
From stdpp Require Import gmap strings list.

#[local] Set Warnings "-clear-no-such-hyp,-register-all".

Local Open Scope string_scope.
Local Open Scope list_scope.
Local Open Scope Z_scope.

(** ** Exceptions and outcomes *)

(** The exceptions the script can meet.  [IncompleteJSONError] is a subclass
    of ijson's [JSONError]; the other ones are Python built-ins.
    [UnicodeDecodeError] is what reading a file opened in text mode raises
    on bytes that are no text, [IsADirectoryError] what [open] raises on a
    directory. *)
Inductive exn : Type :=
  | IncompleteJSONError
  | JSONError
  | KeyError (key : string)
  | TypeError
  | IndexError
  | ValueError
  | FileNotFoundError
  | UnicodeDecodeError
  | IsADirectoryError.

#[global] Instance exn_eq_dec : EqDecision exn.
Proof. solve_decision. Defined.

(** The outcome of an expression that may raise. *)
Inductive pyresult (A : Type) : Type :=
  | Ok (a : A)
  | Raise (e : exn).
Arguments Ok {A} a.
Arguments Raise {A} e.

#[global] Instance pyresult_ret : MRet pyresult := fun A a => Ok a.
#[global] Instance pyresult_bind : MBind pyresult := fun A B f m =>
  match m with
  | Ok a => f a
  | Raise e => Raise e
  end.

#[global] Instance pyresult_eq_dec {A : Type} `{EqDecision A} :
  EqDecision (pyresult A).
Proof. solve_decision. Defined.

(** ** Python strings *)

(** A Python string is given by the bytes of its UTF-8 encoding.  A byte
    that is part of no well-formed sequence stands for a lone surrogate, as
    in a file name that [os.listdir] could not decode. *)
Definition byte (c : ascii) : N := N_of_ascii c.

Definition continuation (b : N) : bool := ((128 <=? b) && (b <=? 191))%N.

(** The code point of a well-formed sequence of two, three and four bytes. *)
Definition utf8_2 (b0 b1 : N) : option N :=
  if ((194 <=? b0) && (b0 <=? 223))%N && continuation b1
  then Some ((b0 - 192) * 64 + (b1 - 128))%N
  else None.

Definition utf8_3 (b0 b1 b2 : N) : option N :=
  if ((224 <=? b0) && (b0 <=? 239))%N && continuation b1 && continuation b2
     && negb ((b0 =? 224) && (b1 <? 160))%N
     && negb ((b0 =? 237) && (159 <? b1))%N
  then Some ((b0 - 224) * 4096 + (b1 - 128) * 64 + (b2 - 128))%N
  else None.

Definition utf8_4 (b0 b1 b2 b3 : N) : option N :=
  if ((240 <=? b0) && (b0 <=? 244))%N
     && continuation b1 && continuation b2 && continuation b3
     && negb ((b0 =? 240) && (b1 <? 144))%N
     && negb ((b0 =? 244) && (143 <? b1))%N
  then Some ((b0 - 240) * 262144 + (b1 - 128) * 4096
             + (b2 - 128) * 64 + (b3 - 128))%N
  else None.

(** The characters of a string, each with its code point and its bytes; a
    byte that starts no well-formed sequence is a character without code
    point. *)
Fixpoint characters (l : list ascii) : list (option N * list ascii) :=
  match l with
  | [] => []
  | c0 :: l1 =>
      let single (_ : unit) :=
        (if (byte c0 <? 128)%N then Some (byte c0) else None, [c0])
        :: characters l1 in
      match l1 with
      | [] => single ()
      | c1 :: l2 =>
          match utf8_2 (byte c0) (byte c1) with
          | Some p => (Some p, [c0; c1]) :: characters l2
          | None =>
              match l2 with
              | [] => single ()
              | c2 :: l3 =>
                  match utf8_3 (byte c0) (byte c1) (byte c2) with
                  | Some p => (Some p, [c0; c1; c2]) :: characters l3
                  | None =>
                      match l3 with
                      | [] => single ()
                      | c3 :: l4 =>
                          match utf8_4 (byte c0) (byte c1) (byte c2) (byte c3)
                          with
                          | Some p => (Some p, [c0; c1; c2; c3]) :: characters l4
                          | None => single ()
                          end
                      end
                  end
              end
          end
      end
  end.

(** ** JSON values and Python container operations *)

(** The JSON values a field of a day object holds, as ijson builds them: a
    number with a fraction or an exponent is a [Decimal], kept as its text.
    Arrays are arrays of identifier strings, the shape of the
    [subaccountIds] field. *)
Inductive json : Type :=
  | JNull
  | JBool (b : bool)
  | JNum (n : Z)
  | JDecimal (literal : string)
  | JStr (s : string)
  | JArr (ids : list string).

(** [d[k]] on a dict: the value, or [KeyError]. *)
Definition getitem (d : gmap string json) (k : string) : pyresult json :=
  match d !! k with
  | Some v => Ok v
  | None => Raise (KeyError k)
  end.

(** The one-character strings of a string, what iterating over it gives. *)
Definition chars (s : string) : list string :=
  (λ c, string_of_list_ascii c.2) <$> characters (list_ascii_of_string s).

(** [set(v)]: the distinct elements of an iterable; a string iterates over
    its characters, [None], booleans and numbers are not iterable. *)
Definition py_set (v : json) : pyresult (gset string) :=
  match v with
  | JArr ids => Ok (list_to_set ids)
  | JStr s => Ok (list_to_set (chars s))
  | JNull | JBool _ | JNum _ | JDecimal _ => Raise TypeError
  end.

(** [len(s)] of a set, a Python integer. *)
Definition len (s : gset string) : Z := Z.of_nat (size s).

(** ** The aggregation loop of [count_dau_returning_new_users_across_files] *)

(** One dictionary of the returned list. *)
Record metrics : Type := {
  date : json;
  dau : Z;
  returningAddresses : Z;
  newUsers : Z
}.

#[global] Instance json_eq_dec : EqDecision json.
Proof. solve_decision. Defined.
#[global] Instance metrics_eq_dec : EqDecision metrics.
Proof. solve_decision. Defined.

(** The two local variables the loops update. *)
Record locals : Type := {
  seen_subaccounts : gset string;
  result : list metrics
}.

(** Their values before the first file (lines 19 and 22). *)
Definition initial : locals :=
  {| seen_subaccounts := ∅; result := [] |}.

(** The values of [date] and [current_subaccounts] once lines 36 and 37 have
    run: the day record read from a day object. *)
Record day : Type := {
  day_date : json;
  current_subaccounts : gset string
}.

(** Lines 36 and 37.  The two subscripts and [set] are the only operations of
    the loop body that can raise, and they come before any update. *)
Definition read_day (day_data : gmap string json) : pyresult day :=
  date ← getitem day_data "date";
  ids ← getitem day_data "subaccountIds";
  current_subaccounts ← py_set ids;
  Ok {| day_date := date; current_subaccounts := current_subaccounts |}.

(** Lines 40 to 57: the counts, the update of the seen set and the append. *)
Definition classify_day (st : locals) (r : day) : locals :=
  let dau := len (current_subaccounts r) in
  let returning_addresses := current_subaccounts r ∩ seen_subaccounts st in
  let new_users := dau - len returning_addresses in
  {| seen_subaccounts := seen_subaccounts st ∪ current_subaccounts r;
     result := result st ++
       [ {| date := day_date r;
            dau := dau;
            returningAddresses := len returning_addresses;
            newUsers := new_users |} ] |}.

(** The body of [for day_data in data_stream] (lines 36 to 57). *)
Definition day_body (st : locals) (day_data : gmap string json) : pyresult locals :=
  r ← read_day day_data;
  Ok (classify_day st r).

(** What one [next] on ijson's item stream does: it yields a day object or
    raises.  A shard is the sequence of these; the end of the list is the
    end of the JSON array.  Events after a [Throw] stand for the rest of the
    file, which no iteration reaches.  The exception is the parser's or
    that of the file it reads: a file opened in text mode raises
    [UnicodeDecodeError] on bytes that are no text.  An entry of the
    directory that [open] refuses, a sub-directory for instance, is a shard
    whose first event is the exception of [open], since the [try] statement
    covers [open] and the iteration alike. *)
Inductive event : Type :=
  | Yield (day_data : gmap string json)
  | Throw (e : exn).

(** [for day_data in data_stream] (line 35): runs the body on each yielded
    object and stops at the first exception, of the stream or of the body.
    The locals are returned as they stand at that point. *)
Fixpoint for_day_data (st : locals) (data_stream : list event) : locals * option exn :=
  match data_stream with
  | [] => (st, None)
  | Throw e :: _ => (st, Some e)
  | Yield day_data :: rest =>
      match day_body st day_data with
      | Ok st' => for_day_data st' rest
      | Raise e => (st, Some e)
      end
  end.

(** [open] of a name in the directory: the shard stored under it, if the
    directory has an entry of this name. *)
Fixpoint open_file (directory : list (string * list event)) (name : string)
    : option (list event) :=
  match directory with
  | [] => None
  | (n, shard) :: rest => if String.eqb n name then Some shard else open_file rest name
  end.

(** The [try] statement of one file (lines 29 to 60): only
    [IncompleteJSONError] is caught, after which the loop goes on to the next
    file; every other exception leaves the statement. *)
Definition try_file (directory : list (string * list event)) (st : locals)
    (json_file : string) : locals * option exn :=
  match open_file directory json_file with
  | None => (st, Some FileNotFoundError)
  | Some data_stream =>
      match for_day_data st data_stream with
      | (st', Some IncompleteJSONError) => (st', None)
      | (st', other) => (st', other)
      end
  end.

(** [for json_file in json_files] (line 25). *)
Fixpoint for_json_file (directory : list (string * list event)) (st : locals)
    (json_files : list string) : locals * option exn :=
  match json_files with
  | [] => (st, None)
  | json_file :: rest =>
      match try_file directory st json_file with
      | (st', None) => for_json_file directory st' rest
      | (st', Some e) => (st', Some e)
      end
  end.

(** The function: the result list when no exception escaped. *)
Definition count_dau_returning_new_users_across_files
    (json_files : list string) (json_files_directory : list (string * list event))
    : pyresult (list metrics) :=
  match for_json_file json_files_directory initial json_files with
  | (st, None) => Ok (result st)
  | (_, Some e) => Raise e
  end.

(** ** String operations used by [main] *)

(** [s.endswith(suffix)]. *)
Definition endswith (s suffix : string) : bool :=
  let n := String.length s in
  let k := String.length suffix in
  (k <=? n)%nat && String.eqb (substring (n - k) k s) suffix.

(** [s.split(sep)] for a one-character separator: never empty, and an empty
    field for every separator at an end or next to another one. *)
Fixpoint split (sep : ascii) (s : string) : list string :=
  match s with
  | EmptyString => [EmptyString]
  | String c s' =>
      if Ascii.eqb c sep then EmptyString :: split sep s'
      else match split sep s' with
           | field :: fields => String c field :: fields
           | [] => [String c EmptyString]
           end
  end.

(** [l[i]] on a list, a negative [i] counting from the end. *)
Definition index {A : Type} (l : list A) (i : Z) : pyresult A :=
  let n := Z.of_nat (List.length l) in
  let j := if i <? 0 then i + n else i in
  if (j <? 0) || (n <=? j) then Raise IndexError
  else match l !! Z.to_nat j with
       | Some x => Ok x
       | None => Raise IndexError
       end.

(** The white space beyond ASCII, which [int] takes for a space. *)
Definition unicode_space (c : N) : bool :=
  ((c =? 133) || (c =? 160) || (c =? 5760) || (8192 <=? c) && (c <=? 8202)
   || (c =? 8232) || (c =? 8233) || (c =? 8239) || (c =? 8287)
   || (c =? 12288))%N.

(** The digit zero of every block of decimal digits beyond ASCII (Unicode
    14.0, the table of Python 3.11); the nine code points after a zero are
    the digits one to nine. *)
Definition decimal_zeros : list N :=
  [
    1632; 1776; 1984; 2406; 2534; 2662; 2790; 2918; 3046; 3174; 3302; 3430;
    3558; 3664; 3792; 3872; 4160; 4240; 6112; 6160; 6470; 6608; 6784; 6800;
    6992; 7088; 7232; 7248; 42528; 43216; 43264; 43472; 43504; 43600; 44016;
    65296; 66720; 68912; 69734; 69872; 69942; 70096; 70384; 70736; 70864;
    71248; 71360; 71472; 71904; 72016; 72784; 73040; 73120; 92768; 92864;
    93008; 120782; 120792; 120802; 120812; 120822; 123200; 123632; 125264;
    130032 ]%N.

Definition unicode_decimal (c : N) : option N :=
  (λ zero, c - zero)%N
  <$> List.find (λ zero, (zero <=? c) && (c <? zero + 10))%N decimal_zeros.

(** What [int] makes of a character before it parses: an ASCII character
    is kept, a space and a decimal digit beyond ASCII become the ASCII
    space and digit, any other character is refused. *)
Definition to_ascii (c : option N) : option N :=
  match c with
  | None => None
  | Some c =>
      if (c <? 128)%N then Some c
      else if unicode_space c then Some 32%N
      else (λ d, 48 + d)%N <$> unicode_decimal c
  end.

(** The ASCII white space [int] strips: tab to carriage return, and space. *)
Definition is_space (c : N) : bool := ((9 <=? c) && (c <=? 13) || (c =? 32))%N.

Fixpoint lstrip (l : list N) : list N :=
  match l with
  | c :: r => if is_space c then lstrip r else l
  | [] => []
  end.

Definition strip (l : list N) : list N := rev (lstrip (rev (lstrip l))).

Definition digit_value (c : N) : option Z :=
  if ((48 <=? c) && (c <=? 57))%N then Some (Z.of_N c - 48) else None.

(** Decimal digits, single underscores allowed between two digits. *)
Fixpoint digits (acc : Z) (after_digit : bool) (l : list N) : option Z :=
  match l with
  | [] => if after_digit then Some acc else None
  | c :: r =>
      match digit_value c with
      | Some d => digits (10 * acc + d) true r
      | None => if (c =? 95)%N && after_digit then digits acc false r else None
      end
  end.

(** The number of digits [int] accepts in a string (Python 3.11). *)
Definition max_str_digits : nat := 4300.

(** [int(s)] on a string, base ten: surrounding white space, one optional
    sign, digits; [ValueError] otherwise. *)
Definition py_int (s : string) : pyresult Z :=
  let parsed :=
    match mapM to_ascii (characters (list_ascii_of_string s)).*1 with
    | None => None
    | Some text =>
        let signed :=
          match strip text with
          | 43%N :: r => (false, r)
          | 45%N :: r => (true, r)
          | l => (false, l)
          end in
        if (max_str_digits
            <? length (List.filter (λ c, bool_decide (is_Some (digit_value c)))
                         signed.2))%nat
        then None
        else (if signed.1 : bool then Z.opp else id) <$> digits 0 false signed.2
    end in
  match parsed with
  | Some n => Ok n
  | None => Raise ValueError
  end.

(** ** Listing and ordering the shards (lines 76 to 79) *)

(** The [key] lambda of line 79. *)
Definition sort_key (x : string) : pyresult (Z * Z) :=
  a ← index (split "_" x) (-2);
  year ← py_int a;
  b ← index (split "_" x) (-1);
  c ← index (split "." b) 0;
  month ← py_int c;
  Ok (year, month).

(** [<] and [<=] on tuples of two integers. *)
Definition tuple_lt (a b : Z * Z) : bool :=
  (a.1 <? b.1) || (a.1 =? b.1) && (a.2 <? b.2).

Definition tuple_le (a b : Z * Z) : bool := negb (tuple_lt b a).

(** [list.sort(key=...)] computes the key of every element, in list order,
    and then sorts stably on the keys.  The stable sort is given as an
    insertion sort: an element goes in front of the first one that is not
    smaller, which keeps elements of equal keys in their original order. *)
Fixpoint decorate (l : list string) : pyresult (list (Z * Z * string)) :=
  match l with
  | [] => Ok []
  | x :: r =>
      k ← sort_key x;
      kr ← decorate r;
      Ok ((k, x) :: kr)
  end.

Fixpoint insert_keyed (x : Z * Z * string) (l : list (Z * Z * string))
    : list (Z * Z * string) :=
  match l with
  | [] => [x]
  | y :: r => if tuple_lt y.1 x.1 then y :: insert_keyed x r else x :: y :: r
  end.

Fixpoint sort_keyed (l : list (Z * Z * string)) : list (Z * Z * string) :=
  match l with
  | [] => []
  | x :: r => insert_keyed x (sort_keyed r)
  end.

Definition sort_by_key (l : list string) : pyresult (list string) :=
  kl ← decorate l;
  Ok ((sort_keyed kl).*2).

(** The order [sort_keyed] sorts by: the keys compare by [<=]. *)
Definition keyed_le (a b : Z * Z * string) : Prop := tuple_le a.1 b.1 = true.

(** Lines 76 and 79 together, on the names [os.listdir] returned. *)
Definition list_json_files (listing : list string) : pyresult (list string) :=
  sort_by_key (List.filter (fun f => endswith f ".json") listing).

(** ** [main] and the script *)

(** What an output file holds: the JSON text of a list, or the beginning
    of such a text, which [json.dump] leaves when it raises: the entries
    [written] in full, the text breaking off inside the entry after them. *)
Inductive document : Type :=
  | Complete (data : list metrics)
  | Truncated (written : list metrics).

(** The values [json.dump] encodes: all of them but a [Decimal]. *)
Definition serializable (v : json) : bool :=
  match v with
  | JDecimal _ => false
  | _ => true
  end.

(** [json.dump(data, output_file, indent=4)] (line 91) writes the text piece
    by piece: the entries it writes in full, and the [TypeError] it raises
    at the first entry whose date it cannot encode. *)
Fixpoint json_dump (data : list metrics) : list metrics * option exn :=
  match data with
  | [] => ([], None)
  | m :: rest =>
      if serializable (date m)
      then let (written, e) := json_dump rest in (m :: written, e)
      else ([], Some TypeError)
  end.

(** The part of the file system the script touches: the input directory of
    each market type with its shards, in the order [os.listdir] gives them,
    and the [outputs] directory, absent or holding a document per name. *)
Record world : Type := {
  inputs : gmap string (list (string * list event));
  outputs : option (gmap string document)
}.

(** [main(market_type, output_filename)]: the world it leaves and the
    exception that ended it, if one did.  Opening the output file empties
    it, so an exception of [json.dump] leaves a truncated document.
    [output_filename] is a plain file name, as the two the script passes.
    Console output is not modelled. *)
Definition main (market_type output_filename : string) (w : world)
    : world * option exn :=
  match inputs w !! market_type with
  | None => (w, Some FileNotFoundError)
  | Some json_files_directory =>
      match list_json_files (json_files_directory.*1) with
      | Raise e => (w, Some e)
      | Ok json_files =>
          match count_dau_returning_new_users_across_files
                  json_files json_files_directory with
          | Raise e => (w, Some e)
          | Ok dau_returning_new_users_data =>
              match outputs w with
              | None => (w, Some FileNotFoundError)
              | Some docs =>
                  match json_dump dau_returning_new_users_data with
                  | (_, None) =>
                      ({| inputs := inputs w;
                          outputs := Some
                            (<[output_filename :=
                                 Complete dau_returning_new_users_data]> docs) |},
                       None)
                  | (written, Some e) =>
                      ({| inputs := inputs w;
                          outputs := Some
                            (<[output_filename := Truncated written]> docs) |},
                       Some e)
                  end
              end
          end
      end
  end.

(** The two calls under [if __name__ == "__main__"] (lines 96 and 97). *)
Definition run_script (w : world) : world * option exn :=
  match main "spot" "spot_dau_returning_new_users_data.json" w with
  | (w', Some e) => (w', Some e)
  | (w', None) =>
      main "derivative" "derivative_dau_returning_new_users_data.json" w'
  end.

(** ** The day records a run classifies *)

(** The day records of a shard that the inner loop classifies: those read
    before the first exception. *)
Fixpoint classified_stream (data_stream : list event) : list day :=
  match data_stream with
  | Yield day_data :: rest =>
      match read_day day_data with
      | Ok r => r :: classified_stream rest
      | Raise _ => []
      end
  | _ => []
  end.

(** The exception that ends the iteration over a shard, if one does. *)
Fixpoint stream_exit (data_stream : list event) : option exn :=
  match data_stream with
  | [] => None
  | Throw e :: _ => Some e
  | Yield day_data :: rest =>
      match read_day day_data with
      | Ok _ => stream_exit rest
      | Raise e => Some e
      end
  end.

(** The exception that leaves the [try] statement of a file. *)
Definition file_exit (directory : list (string * list event)) (json_file : string)
    : option exn :=
  match open_file directory json_file with
  | None => Some FileNotFoundError
  | Some data_stream =>
      match stream_exit data_stream with
      | Some IncompleteJSONError => None
      | other => other
      end
  end.

(** The day records a run over [json_files] classifies, in order, up to the
    exception that ends it. *)
Fixpoint classified (directory : list (string * list event)) (json_files : list string)
    : list day :=
  match json_files with
  | [] => []
  | json_file :: rest =>
      match open_file directory json_file with
      | None => []
      | Some data_stream =>
          classified_stream data_stream ++
          match file_exit directory json_file with
          | None => classified directory rest
          | Some _ => []
          end
      end
  end.

(** The exception that ends the run, if one does. *)
Fixpoint run_exit (directory : list (string * list event)) (json_files : list string)
    : option exn :=
  match json_files with
  | [] => None
  | json_file :: rest =>
      match file_exit directory json_file with
      | None => run_exit directory rest
      | Some e => Some e
      end
  end.

(** The locals after the first [k] day records of a run. *)
Definition locals_after (directory : list (string * list event))
    (json_files : list string) (k : nat) : locals :=
  foldl classify_day initial (take k (classified directory json_files)).

(** The identifiers of a list of day records. *)
Definition identifiers (days : list day) : gset string :=
  ⋃ (current_subaccounts <$> days).

(** ** Inputs used in the examples *)

(** A well-formed day object. *)
Definition day_object (date : string) (ids : list string) : gmap string json :=
  {[ "date" := JStr date; "subaccountIds" := JArr ids ]}.

(** A directory of two shards of one day each. *)
Definition two_shards (X Y Z : string) : list (string * list event) :=
  [ ("trades_2024_1.json", [Yield (day_object "2024-01-15" [X; Y])]);
    ("trades_2024_2.json", [Yield (day_object "2024-02-01" [Y; Z])]) ].

(** A first shard that yields three days and then ends unexpectedly, with a
    fourth day behind the point of the error, and a second, complete shard. *)
Definition truncated_after_three : list (string * list event) :=
  [ ("trades_2024_1.json",
     [ Yield (day_object "2024-01-01" ["A"; "B"]);
       Yield (day_object "2024-01-02" ["B"; "C"]);
       Yield (day_object "2024-01-03" ["A"; "D"]);
       Throw IncompleteJSONError;
       Yield (day_object "2024-01-04" ["E"]) ]);
    ("trades_2024_2.json",
     [ Yield (day_object "2024-02-01" ["C"; "E"]) ]) ].

(** The same first shard cut inside a character of several bytes: the
    text layer of the file, not the parser, meets the unexpected end. *)
Definition cut_inside_a_character : list (string * list event) :=
  [ ("trades_2024_1.json",
     [ Yield (day_object "2024-01-01" ["A"; "B"]);
       Yield (day_object "2024-01-02" ["B"; "C"]);
       Yield (day_object "2024-01-03" ["A"; "D"]);
       Throw UnicodeDecodeError ]);
    ("trades_2024_2.json",
     [ Yield (day_object "2024-02-01" ["C"; "E"]) ]) ].

(** A first shard whose second day object has no [date], and the same
    directory with an unexpected end of the stream in place of that object. *)
Definition second_day_without_date : list (string * list event) :=
  [ ("trades_2024_1.json",
     [ Yield (day_object "2024-01-01" ["A"; "B"]);
       Yield {[ "subaccountIds" := JArr ["B"; "C"] ]};
       Yield (day_object "2024-01-03" ["A"; "D"]) ]);
    ("trades_2024_2.json",
     [ Yield (day_object "2024-02-01" ["C"; "E"]) ]) ].

Definition second_day_truncated : list (string * list event) :=
  [ ("trades_2024_1.json",
     [ Yield (day_object "2024-01-01" ["A"; "B"]);
       Throw IncompleteJSONError;
       Yield (day_object "2024-01-03" ["A"; "D"]) ]);
    ("trades_2024_2.json",
     [ Yield (day_object "2024-02-01" ["C"; "E"]) ]) ].

(** A file system with an input directory for the derivative category only,
    and an empty [outputs] directory. *)
Definition derivative_only : world :=
  {| inputs := {[ "derivative" := two_shards "X" "Y" "Z" ]};
     outputs := Some ∅ |}.

(** A first shard whose stream raises a parse error other than the
    unexpected end, after one day. *)
Definition invalid_first_shard : list (string * list event) :=
  [ ("trades_2024_1.json",
     [ Yield (day_object "2024-01-01" ["A"; "B"]);
       Throw JSONError;
       Yield (day_object "2024-01-03" ["A"; "D"]) ]);
    ("trades_2024_2.json",
     [ Yield (day_object "2024-02-01" ["C"; "E"]) ]) ].

(** A file system whose spot directory holds, beside a shard, a JSON file
    that is not named after a year and a month. *)
Definition spot_with_summary : world :=
  {| inputs := {[ "spot" :=
       [ ("trades_2024_1.json", [Yield (day_object "2024-01-15" ["X"; "Y"])]);
         ("summary.json", []) ] ]};
     outputs := Some ∅ |}.

(** A file system whose spot directory holds no JSON file. *)
Definition spot_without_shards : world :=
  {| inputs := {[ "spot" := [ ("notes.txt", [Throw JSONError]) ] ]};
     outputs := Some {[ "earlier.json" := Complete [] ]} |}.

(** A file system with a directory of two shards for each category, the
    identifier Y being active in both. *)
Definition both_categories : world :=
  {| inputs := {[ "spot" := two_shards "X" "Y" "Z";
                  "derivative" := two_shards "Y" "Q" "R" ]};
     outputs := Some ∅ |}.

(** A file system whose spot shard holds a second day with a number with a
    fraction for date. *)
Definition spot_with_decimal_date : world :=
  {| inputs := {[ "spot" :=
       [ ("trades_2024_1.json",
          [ Yield (day_object "2024-01-15" ["X"; "Y"]);
            Yield {[ "date" := JDecimal "20240116.5";
                     "subaccountIds" := JArr ["Y"; "Z"] ]};
            Yield (day_object "2024-01-17" ["Z"]) ]) ] ]};
     outputs := Some {[ "earlier.json" := Complete [] ]} |}.

(** The two file names of these directories, in the order of their keys. *)
Definition two_files : list string :=
  ["trades_2024_1.json"; "trades_2024_2.json"].

(** The dictionary [classify_day] appends. *)
Definition entry (st : locals) (r : day) : metrics :=
  {| date := day_date r;
     dau := len (current_subaccounts r);
     returningAddresses := len (current_subaccounts r ∩ seen_subaccounts st);
     newUsers := len (current_subaccounts r)
                 - len (current_subaccounts r ∩ seen_subaccounts st) |}.

(** ** Totals over the result list *)

(** The sum of the [newUsers] fields of a list of entries. *)
Definition total_new (entries : list metrics) : Z :=
  foldr (λ m acc, newUsers m + acc) 0 entries.

(** The day records one file contributes when its [try] statement runs. *)
Definition classified_file (directory : list (string * list event))
    (json_file : string) : list day :=
  match open_file directory json_file with
  | Some data_stream => classified_stream data_stream
  | None => []
  end.

(** The event at which the iteration over a shard stops with [e]: the
    stream raises it, or reading the yielded day object does. *)
Definition stops_with (ev : event) (e : exn) : Prop :=
  ev = Throw e ∨ ∃ day_data, ev = Yield day_data ∧ read_day day_data = Raise e.

(** * The fetcher of [scripts/classes/extract_data_methods.py] *)

Module JSONFetcher.

(** Decoded JSON, as [response.json()] returns it and [json.dump] takes it.
    Python's [None] is [VNull]; numbers are integers; an object keeps its
    keys in order, each key once. *)
Inductive value : Type :=
  | VNull
  | VBool (b : bool)
  | VNum (n : Z)
  | VStr (s : string)
  | VList (items : list value)
  | VDict (fields : list (string * value)).

(** The truth value of an object, as [if data:] takes it. *)
Definition truthy (v : value) : bool :=
  match v with
  | VNull => false
  | VBool b => b
  | VNum n => negb (n =? 0)
  | VStr s => negb (String.eqb s "")
  | VList items => match items with [] => false | _ :: _ => true end
  | VDict fields => match fields with [] => false | _ :: _ => true end
  end.

(** The exceptions that leave the methods.  [OSError] stands for its
    subclasses too, [FileNotFoundError] and [IsADirectoryError] among
    them. *)
Inductive error : Type :=
  | ValueError
  | IndexError
  | AttributeError
  | OSError
  | UnicodeEncodeError.

Inductive outcome (A : Type) : Type :=
  | Returns (a : A)
  | Raises (e : error).
Arguments Returns {A} a.
Arguments Raises {A} e.

(** The attributes of an instance. *)
Record t : Type := {
  url : option string;
  headers : gmap string string
}.

(** [__init__]: an absent or empty [headers] becomes a new empty dict. *)
Definition __init__ (url : option string) (headers : option (gmap string string))
    : t :=
  {| url := url;
     headers := match headers with
                | Some h => if bool_decide (h ≠ ∅) then h else ∅
                | None => ∅
                end |}.

Definition set_url (self : t) (url : string) : t :=
  {| url := Some url; headers := headers self |}.

Definition set_headers (self : t) (headers : gmap string string) : t :=
  {| url := url self; headers := headers |}.

(** What [requests.get] gives for a URL and headers: nothing when it
    raises, or a response with its status code and the value its body
    decodes to, if it decodes. *)
Record response : Type := {
  status_code : Z;
  json_body : option value
}.

(** [fetch_json] (lines 39 to 50).  Without URL it raises; every exception
    of the request, of [raise_for_status] (a status from 400 to 599) and of
    the decoding is caught, and [None] returned. *)
Definition fetch_json (get : string → gmap string string → option response)
    (self : t) : outcome value :=
  match url self with
  | None => Raises ValueError
  | Some u =>
      if String.eqb u "" then Raises ValueError
      else match get u (headers self) with
           | None => Returns VNull
           | Some r =>
               if (400 <=? status_code r) && (status_code r <? 600)
               then Returns VNull
               else match json_body r with
                    | Some data => Returns data
                    | None => Returns VNull
                    end
           end
  end.

(** What a saved file holds: the JSON text of a value, which [json.dump]
    and [json.dumps] with the same indent produce alike, or the rows the CSV
    writer was given, cell by cell. *)
Inductive content : Type :=
  | JsonText (data : value)
  | CsvRows (rows : list (list value)).

(** The directories that exist, the files, by directory and name, and the
    paths that [open] refuses to open for writing even when the directory
    exists: a file name with a sub-directory that is missing, an empty file
    name, the name of a directory.  Creating the directory is taken to
    succeed, and files are written as UTF-8. *)
Record files_state : Type := {
  dirs : gset string;
  files : gmap (string * string) content;
  refused : gset (string * string)
}.

(** The [lists] folder beside the folder of the module. *)
Definition lists_directory : string := "../lists".

(** Lines 59 to 61: the directory to save in. *)
Definition directory_or_default (save_directory : option string) : string :=
  match save_directory with
  | None => lists_directory
  | Some d => if String.eqb d "" then lists_directory else d
  end.

Definition makedirs (d : string) (w : files_state) : files_state :=
  {| dirs := {[d]} ∪ dirs w; files := files w; refused := refused w |}.

(** What a file holds once it has been opened for writing, written and
    closed. *)
Definition write (file_path : string * string) (c : content) (w : files_state)
    : files_state :=
  {| dirs := dirs w; files := <[file_path := c]> (files w);
     refused := refused w |}.

(** The strings a file can take: those without lone surrogate. *)
Definition encodable (s : string) : bool :=
  forallb (λ c, bool_decide (is_Some c.1)) (characters (list_ascii_of_string s)).

(** The cells of a CSV row that can be written: a string must be
    encodable; the text of any other value is, also of a list or an object
    with strings in it, which are written in their escaped form. *)
Definition encodable_cell (v : value) : bool :=
  match v with
  | VStr s => encodable s
  | _ => true
  end.

(** [save_json_to_file] (lines 59 to 72): the files afterwards and the
    exception that left the method, if one did. *)
Definition save_json_to_file (get : string → gmap string string → option response)
    (self : t) (filename : string) (save_directory : option string)
    (w : files_state) : files_state * option error :=
  let save_directory := directory_or_default save_directory in
  let w := makedirs save_directory w in
  let file_path := (save_directory, filename) in
  match fetch_json get self with
  | Raises e => (w, Some e)
  | Returns data =>
      if truthy data then
        if bool_decide (file_path ∈ refused w) then (w, Some OSError)
        else (write file_path (JsonText data) w, None)
      else (w, None)
  end.

(** [rowdict.get(key, restval)] of the CSV writer, [restval] being the
    empty string. *)
Definition get_cell (fields : list (string * value)) (key : string) : value :=
  match List.find (λ p, String.eqb p.1 key) fields with
  | Some p => p.2
  | None => VStr ""
  end.

(** [DictWriter._dict_to_list]: a row with a key that is no field name is
    refused; a row that is no dict has no [keys]. *)
Definition _dict_to_list (fieldnames : list string) (rowdict : value)
    : outcome (list value) :=
  match rowdict with
  | VDict fields =>
      if forallb (λ k, bool_decide (k ∈ fieldnames)) fields.*1
      then Returns (get_cell fields <$> fieldnames)
      else Raises ValueError
  | _ => Raises AttributeError
  end.

(** What [DictWriter.writerows] does with one row: the cells it writes, or
    the exception of [_dict_to_list] or of the file, which refuses a row
    with a cell it cannot encode. *)
Definition writerow (fieldnames : list string) (rowdict : value)
    : outcome (list value) :=
  match _dict_to_list fieldnames rowdict with
  | Raises e => Raises e
  | Returns cells =>
      if forallb encodable_cell cells then Returns cells
      else Raises UnicodeEncodeError
  end.

(** [DictWriter.writerows]: the rows written, up to the first one that
    raises. *)
Fixpoint writerows (fieldnames : list string) (rowdicts : list value)
    : list (list value) * option error :=
  match rowdicts with
  | [] => ([], None)
  | rowdict :: rest =>
      match writerow fieldnames rowdict with
      | Raises e => ([], Some e)
      | Returns cells =>
          let (rows, e) := writerows fieldnames rest in (cells :: rows, e)
      end
  end.

(** [_save_as_csv] (lines 114 to 122).  The file is opened, and so
    created, before the header and the rows are written; it keeps what was
    written when the header or a row raises. *)
Definition _save_as_csv (file_path : string * string) (data : value)
    (w : files_state) : files_state * option error :=
  match data with
  | VList [] => (w, Some IndexError)
  | VList (VDict first :: rest) =>
      let keys := first.*1 in
      if bool_decide (file_path ∈ refused w) then (w, Some OSError)
      else if forallb encodable keys then
        let (rows, e) := writerows keys (VDict first :: rest) in
        (write file_path (CsvRows ((VStr <$> keys) :: rows)) w, e)
      else (write file_path (CsvRows []) w, Some UnicodeEncodeError)
  | _ => (w, None)
  end.

(** [save_to_format] (lines 82 to 104). *)
Definition save_to_format (get : string → gmap string string → option response)
    (self : t) (filename : string) (save_directory : option string)
    (format : string) (w : files_state) : files_state * option error :=
  let save_directory := directory_or_default save_directory in
  let w := makedirs save_directory w in
  let file_path := (save_directory, filename) in
  match fetch_json get self with
  | Raises e => (w, Some e)
  | Returns data =>
      if truthy data then
        if String.eqb format "json" then
          if bool_decide (file_path ∈ refused w) then (w, Some OSError)
          else (write file_path (JsonText data) w, None)
        else if String.eqb format "text" then
          if bool_decide (file_path ∈ refused w) then (w, Some OSError)
          else (write file_path (JsonText data) w, None)
        else if String.eqb format "csv" then _save_as_csv file_path data w
        else (w, None)
      else (w, None)
  end.

(** A row the CSV writer accepts: an object whose keys are field names. *)
Definition row_fits (fieldnames : list string) (rowdict : value) : Prop :=
  ∃ fields, rowdict = VDict fields ∧ fields.*1 ⊆ fieldnames.

(** The cells written for an object: the value of each field name, the
    empty string for a field the object has not. *)
Definition cells_of (fieldnames : list string) (rowdict : value) : list value :=
  match rowdict with
  | VDict fields => get_cell fields <$> fieldnames
  | _ => []
  end.

(** A row the CSV writer accepts and the file takes. *)
Definition row_written (fieldnames : list string) (rowdict : value) : Prop :=
  row_fits fieldnames rowdict
  ∧ forallb encodable_cell (cells_of fieldnames rowdict) = true.

(** ** Inputs used in the examples *)

Definition no_files : files_state :=
  {| dirs := ∅; files := ∅; refused := ∅ |}.

(** A string that is one lone surrogate, U+DC80, as [surrogateescape]
    decodes the byte 128. *)
Definition lone_surrogate : string := String "128" "".

(** Three objects, the second with a lone surrogate for ticker. *)
Definition lone_surrogate_cell : value :=
  VList [ VDict [("ticker", VStr "INJ/USDT"); ("status", VNum 1)];
          VDict [("ticker", VStr lone_surrogate)];
          VDict [("ticker", VStr "ETH/USDT")] ].

(** One object with a lone surrogate for key. *)
Definition lone_surrogate_key : value :=
  VList [ VDict [(lone_surrogate, VNum 1)] ].

(** No files, and a [lists] directory without the sub-directory [sub]. *)
Definition no_sub_directory : files_state :=
  {| dirs := ∅; files := ∅;
     refused := {[ (lists_directory, "sub/markets.json") ]} |}.

(** A server that answers every request with the given status and value. *)
Definition answers (status : Z) (data : value)
    : string → gmap string string → option response :=
  λ _ _, Some {| status_code := status; json_body := Some data |}.

Definition markets_fetcher : t :=
  __init__ (Some "https://example.org/markets") None.

(** Three rows: the second lacks a field of the first, the third has a
    field the first has not. *)
Definition three_rows : value :=
  VList [ VDict [("ticker", VStr "INJ/USDT"); ("status", VNum 1)];
          VDict [("ticker", VStr "ATOM/USDT")];
          VDict [("ticker", VStr "ETH/USDT"); ("fee", VNum 2)] ].

End JSONFetcher.

(** * Properties *)

(** ** The loops as a fold of [classify_day] *)

Lemma for_day_data_classified st data_stream :
  for_day_data st data_stream =
  (foldl classify_day st (classified_stream data_stream), stream_exit data_stream).
Proof.
  revert st. induction data_stream as [|[day_data|e] rest IH]; intros st; simpl;
    [done | | done].
  unfold day_body. destruct (read_day day_data) as [r|e]; simpl; [apply IH | done].
Qed.

Lemma try_file_classified directory st json_file data_stream :
  open_file directory json_file = Some data_stream →
  try_file directory st json_file =
  (foldl classify_day st (classified_stream data_stream),
   file_exit directory json_file).
Proof.
  intros Hopen. unfold try_file, file_exit. rewrite Hopen, for_day_data_classified.
  by destruct (stream_exit data_stream) as [[]|].
Qed.

Lemma try_file_missing directory st json_file :
  open_file directory json_file = None →
  try_file directory st json_file = (st, Some FileNotFoundError).
Proof. intros Hopen. unfold try_file. by rewrite Hopen. Qed.

Lemma for_json_file_classified directory st json_files :
  for_json_file directory st json_files =
  (foldl classify_day st (classified directory json_files),
   run_exit directory json_files).
Proof.
  revert st. induction json_files as [|json_file rest IH]; intros st; simpl; [done|].
  destruct (open_file directory json_file) as [data_stream|] eqn:Hopen.
  - rewrite (try_file_classified _ _ _ _ Hopen), foldl_app.
    destruct (file_exit directory json_file) as [e|]; simpl; [done | apply IH].
  - rewrite (try_file_missing _ _ _ Hopen). unfold file_exit. by rewrite Hopen.
Qed.

(** ** What a fold of [classify_day] leaves in the locals *)

Lemma classify_day_entry st r :
  classify_day st r =
  {| seen_subaccounts := seen_subaccounts st ∪ current_subaccounts r;
     result := result st ++ [entry st r] |}.
Proof. done. Qed.

Lemma foldl_classify_snoc st days r :
  foldl classify_day st (days ++ [r]) = classify_day (foldl classify_day st days) r.
Proof. by rewrite foldl_app. Qed.

Lemma seen_foldl st days :
  seen_subaccounts (foldl classify_day st days) =
  seen_subaccounts st ∪ identifiers days.
Proof.
  unfold identifiers. revert st. induction days as [|r days IH]; intros st; simpl.
  - set_solver.
  - rewrite IH. simpl. set_solver.
Qed.

Lemma result_foldl_length st days :
  length (result (foldl classify_day st days)) =
  (length (result st) + length days)%nat.
Proof.
  revert st. induction days as [|r days IH]; intros st; simpl; [lia|].
  rewrite IH. simpl. rewrite length_app. simpl. lia.
Qed.

Lemma result_foldl_prefix st days :
  result st `prefix_of` result (foldl classify_day st days).
Proof.
  revert st. induction days as [|r days IH]; intros st; simpl; [done|].
  etrans; [|apply IH]. simpl. by apply prefix_app_r.
Qed.

Lemma result_foldl_take st days k :
  result (foldl classify_day st (take k days)) =
  take (length (result st) + k) (result (foldl classify_day st days)).
Proof.
  revert st k. induction days as [|r days IH]; intros st k.
  - rewrite take_nil. simpl. rewrite take_ge; [done | lia].
  - destruct k as [|k]; simpl.
    + destruct (result_foldl_prefix (classify_day st r) days) as [tl ->].
      simpl. rewrite <- !app_assoc, Nat.add_0_r. by rewrite take_app_length.
    + rewrite IH. simpl. rewrite length_app. simpl. f_equal. lia.
Qed.

Lemma result_foldl_lookup st days k r :
  days !! k = Some r →
  result (foldl classify_day st days) !! (length (result st) + k)%nat =
  Some (entry (foldl classify_day st (take k days)) r).
Proof.
  revert st k. induction days as [|r' days IH]; intros st k Hk; [done|].
  destruct k as [|k]; simpl in *.
  - injection Hk as ->.
    destruct (result_foldl_prefix (classify_day st r) days) as [tl ->]. simpl.
    rewrite <- app_assoc, Nat.add_0_r. rewrite lookup_app_r; [|lia].
    by rewrite Nat.sub_diag.
  - rewrite <- (IH (classify_day st r') k Hk). simpl. rewrite length_app. simpl.
    f_equal. lia.
Qed.

Lemma count_classified json_files directory :
  count_dau_returning_new_users_across_files json_files directory =
  match run_exit directory json_files with
  | None => Ok (result (foldl classify_day initial (classified directory json_files)))
  | Some e => Raise e
  end.
Proof.
  unfold count_dau_returning_new_users_across_files.
  rewrite for_json_file_classified. by destruct (run_exit directory json_files).
Qed.

Lemma final_locals directory json_files :
  (for_json_file directory initial json_files).1 =
  locals_after directory json_files (length (classified directory json_files)).
Proof.
  rewrite for_json_file_classified. unfold locals_after. simpl.
  by rewrite firstn_all.
Qed.

Lemma locals_after_succ directory json_files k r :
  classified directory json_files !! k = Some r →
  locals_after directory json_files (S k) =
  classify_day (locals_after directory json_files k) r.
Proof.
  intros Hk. unfold locals_after. rewrite (take_S_r _ _ _ Hk).
  apply foldl_classify_snoc.
Qed.

Lemma read_day_array day_data date ids :
  day_data !! "date" = Some date →
  day_data !! "subaccountIds" = Some (JArr ids) →
  read_day day_data =
  Ok {| day_date := date; current_subaccounts := list_to_set ids |}.
Proof. intros Hd Hi. unfold read_day, getitem. by rewrite Hd, Hi. Qed.

Lemma size_set_of_list (ids : list string) :
  size (list_to_set (C := gset string) ids) = length (remove_dups ids).
Proof.
  rewrite <- (size_list_to_set (C := gset string) (remove_dups ids));
    [|apply NoDup_remove_dups].
  f_equal. apply set_eq. intros x.
  by rewrite !elem_of_list_to_set, elem_of_remove_dups.
Qed.

(** ** The metrics of a day *)

(** C1. Whatever the shards hold, the entry of the [k]-th classified day
    record is computed from [current], the set of its identifiers, and from
    the seen set as the earlier records of the run left it, which is the
    union of their identifier sets: [dau] is the size of [current],
    [returningAddresses] the size of its intersection with the seen set,
    [newUsers] their difference, and the entry carries the date of the
    record.  The seen set becomes its union with [current] after that.  An
    array of identifiers is read as the set of its elements, so repeated
    identifiers count once. *)
Theorem classify_by_the_algorithm directory json_files k r :
  classified directory json_files !! k = Some r →
  let before := locals_after directory json_files k in
  let current := current_subaccounts r in
  seen_subaccounts before = identifiers (take k (classified directory json_files))
  ∧ result (for_json_file directory initial json_files).1 !! k =
      Some {| date := day_date r;
              dau := Z.of_nat (size current);
              returningAddresses :=
                Z.of_nat (size (current ∩ seen_subaccounts before));
              newUsers :=
                Z.of_nat (size current)
                - Z.of_nat (size (current ∩ seen_subaccounts before)) |}
  ∧ seen_subaccounts (locals_after directory json_files (S k)) =
      seen_subaccounts before ∪ current
  ∧ (∀ data,
       count_dau_returning_new_users_across_files json_files directory = Ok data →
       data = result (for_json_file directory initial json_files).1)
  ∧ (∀ day_data date ids,
       day_data !! "date" = Some date →
       day_data !! "subaccountIds" = Some (JArr ids) →
       read_day day_data =
         Ok {| day_date := date; current_subaccounts := list_to_set ids |}
       ∧ size (list_to_set (C := gset string) ids) = length (remove_dups ids)).
Proof.
  intros Hk before current. repeat split.
  - unfold before, locals_after. rewrite seen_foldl. simpl. set_solver.
  - rewrite for_json_file_classified. simpl.
    apply (result_foldl_lookup initial _ _ _ Hk).
  - by rewrite (locals_after_succ _ _ _ _ Hk).
  - intros data. unfold count_dau_returning_new_users_across_files.
    destruct (for_json_file directory initial json_files) as [st [e|]]; simpl;
      congruence.
  - by apply read_day_array.
  - apply size_set_of_list.
Qed.

Lemma result_lookup_entry directory json_files k m :
  result (for_json_file directory initial json_files).1 !! k = Some m →
  ∃ r, classified directory json_files !! k = Some r
       ∧ m = entry (locals_after directory json_files k) r.
Proof.
  rewrite for_json_file_classified. simpl. intros Hm.
  assert (k < length (classified directory json_files))%nat as Hlt.
  { apply lookup_lt_Some in Hm. rewrite result_foldl_length in Hm. simpl in Hm. lia. }
  destruct (lookup_lt_is_Some_2 _ _ Hlt) as [r Hr]. exists r. split; [done|].
  pose proof (result_foldl_lookup initial _ _ _ Hr) as Hentry. simpl in Hentry.
  unfold locals_after. congruence.
Qed.

Lemma len_intersection_bounds (current seen : gset string) :
  0 ≤ len (current ∩ seen) ∧ len (current ∩ seen) ≤ len current
  ∧ len (current ∩ seen) ≤ len seen.
Proof.
  unfold len. split; [lia|].
  split; apply inj_le, subseteq_size; set_solver.
Qed.

(** C2. Every entry a run appends satisfies [dau = returningAddresses +
    newUsers] and [returningAddresses <= dau], and its [returningAddresses]
    is at most the size of the seen set as it stood when the day was
    classified.  The same holds of the entry one run of the loop body
    appends, whatever the locals it starts from. *)
Theorem metrics_invariant directory json_files k m :
  result (for_json_file directory initial json_files).1 !! k = Some m →
  (dau m = returningAddresses m + newUsers m
   ∧ 0 ≤ returningAddresses m ≤ dau m
   ∧ returningAddresses m ≤
       Z.of_nat (size (seen_subaccounts (locals_after directory json_files k))))
  ∧ (∀ st day_data st',
       day_body st day_data = Ok st' →
       ∃ m', result st' = result st ++ [m']
             ∧ dau m' = returningAddresses m' + newUsers m'
             ∧ 0 ≤ returningAddresses m' ≤ dau m'
             ∧ returningAddresses m' ≤ Z.of_nat (size (seen_subaccounts st))).
Proof.
  intros Hm. split.
  - destruct (result_lookup_entry _ _ _ _ Hm) as (r & _ & ->). simpl.
    pose proof (len_intersection_bounds (current_subaccounts r)
                  (seen_subaccounts (locals_after directory json_files k))) as Hb.
    unfold len in *. lia.
  - intros st day_data st'. unfold day_body.
    destruct (read_day day_data) as [r|e]; simpl; [|done]. intros [= <-].
    exists (entry st r). split; [done|]. simpl.
    pose proof (len_intersection_bounds (current_subaccounts r)
                  (seen_subaccounts st)) as Hb.
    unfold len in *. lia.
Qed.

(** ** The seen set *)

Lemma seen_foldl_subseteq st days :
  seen_subaccounts st ⊆ seen_subaccounts (foldl classify_day st days).
Proof. rewrite seen_foldl. apply union_subseteq_l. Qed.

Lemma identifiers_take_mono (days : list day) j n :
  identifiers (take j days) ⊆ identifiers (take (j + n) days).
Proof.
  unfold identifiers. rewrite <- take_take_drop.
  rewrite fmap_app, union_list_app_L. apply union_subseteq_l.
Qed.

(** C8. The seen set only grows.  Classifying a day record gives a superset
    of the seen set it started from, and so does each loop: the iteration
    over a shard, the [try] statement of a file, whatever exception it
    meets, and the iteration over the files, which hands the set of one file
    to the next.  Hence the seen set after [j] records of a run is included
    in the one after [j + n] records, and its size is not larger. *)
Theorem seen_set_only_grows directory st :
  (∀ r, seen_subaccounts st ⊆ seen_subaccounts (classify_day st r)
        ∧ (size (seen_subaccounts st)
           ≤ size (seen_subaccounts (classify_day st r)))%nat)
  ∧ (∀ data_stream,
       seen_subaccounts st ⊆ seen_subaccounts (for_day_data st data_stream).1)
  ∧ (∀ json_file,
       seen_subaccounts st ⊆ seen_subaccounts (try_file directory st json_file).1)
  ∧ (∀ json_files,
       seen_subaccounts st
         ⊆ seen_subaccounts (for_json_file directory st json_files).1
       ∧ (size (seen_subaccounts st)
          ≤ size (seen_subaccounts (for_json_file directory st json_files).1))%nat)
  ∧ (∀ json_files j n,
       seen_subaccounts (locals_after directory json_files j)
         ⊆ seen_subaccounts (locals_after directory json_files (j + n))
       ∧ (size (seen_subaccounts (locals_after directory json_files j))
          ≤ size (seen_subaccounts (locals_after directory json_files (j + n))))%nat).
Proof.
  assert (∀ json_files j n,
    seen_subaccounts (locals_after directory json_files j)
      ⊆ seen_subaccounts (locals_after directory json_files (j + n))) as Hafter.
  { intros json_files j n. unfold locals_after. rewrite !seen_foldl. simpl.
    apply union_mono_l, identifiers_take_mono. }
  split; [|split; [|split; [|split]]].
  - intros r. assert (seen_subaccounts st ⊆ seen_subaccounts (classify_day st r))
      as Hsub by apply union_subseteq_l.
    split; [done | by apply subseteq_size].
  - intros data_stream. rewrite for_day_data_classified. apply seen_foldl_subseteq.
  - intros json_file. destruct (open_file directory json_file) as [s|] eqn:Hopen.
    + rewrite (try_file_classified _ _ _ _ Hopen). apply seen_foldl_subseteq.
    + by rewrite (try_file_missing _ _ _ Hopen).
  - intros json_files. rewrite for_json_file_classified. simpl.
    split; [|apply subseteq_size]; apply seen_foldl_subseteq.
  - intros json_files j n. split; [|apply subseteq_size]; apply Hafter.
Qed.

(** C9. The first entry of a run has no returning address and as many new
    users as active ones: the seen set is empty when its day is classified. *)
Theorem first_day_all_new directory json_files m :
  result (for_json_file directory initial json_files).1 !! 0%nat = Some m →
  seen_subaccounts (locals_after directory json_files 0) = ∅
  ∧ returningAddresses m = 0
  ∧ newUsers m = dau m.
Proof.
  intros Hm. destruct (result_lookup_entry _ _ _ _ Hm) as (r & _ & ->).
  unfold locals_after. rewrite take_0. simpl.
  assert (len (current_subaccounts r ∩ ∅) = 0) as ->.
  { unfold len. replace (current_subaccounts r ∩ ∅) with (∅ : gset string)
      by set_solver. by rewrite size_empty. }
  repeat split; lia.
Qed.

Lemma dates_foldl st days :
  date <$> result (foldl classify_day st days) =
  (date <$> result st) ++ (day_date <$> days).
Proof.
  revert st. induction days as [|r days IH]; intros st; simpl.
  - by rewrite app_nil_r.
  - rewrite IH. simpl. rewrite fmap_app. simpl. by rewrite <- app_assoc.
Qed.

Lemma elem_of_identifiers (days : list day) x :
  x ∈ identifiers days ↔ ∃ r, r ∈ days ∧ x ∈ current_subaccounts r.
Proof.
  unfold identifiers. rewrite elem_of_union_list. split.
  - intros (X & HX & Hx). apply list_elem_of_fmap in HX as (r & -> & Hr). eauto.
  - intros (r & Hr & Hx). exists (current_subaccounts r). split; [|done].
    apply list_elem_of_fmap. eauto.
Qed.

(** C10. The seen set is the union of the identifier sets of the day
    records classified so far, and the result list has one entry per such
    record, in the same order: this holds for the locals a run ends with,
    whether an exception ended it or not, and after every number [k] of
    classified records.  One step adds the identifiers of one record and
    appends one entry. *)
Theorem seen_set_is_union_of_classified directory json_files :
  let days := classified directory json_files in
  let final := (for_json_file directory initial json_files).1 in
  seen_subaccounts final = identifiers days
  ∧ length (result final) = length days
  ∧ date <$> result final = day_date <$> days
  ∧ (∀ k, let st := locals_after directory json_files k in
       seen_subaccounts st = identifiers (take k days)
       ∧ (∀ x, x ∈ seen_subaccounts st
               ↔ ∃ r, r ∈ take k days ∧ x ∈ current_subaccounts r)
       ∧ result st = take k (result final)
       ∧ length (result st) = (k `min` length days)%nat)
  ∧ (∀ st r, ∃ m,
       classify_day st r =
       {| seen_subaccounts := seen_subaccounts st ∪ current_subaccounts r;
          result := result st ++ [m] |}).
Proof.
  intros days final.
  assert (final = foldl classify_day initial days) as Hfinal.
  { unfold final. by rewrite for_json_file_classified. }
  assert (∀ k, seen_subaccounts (locals_after directory json_files k)
               = identifiers (take k days)) as Hseen.
  { intros k. unfold locals_after. rewrite seen_foldl. simpl. fold days.
    apply (left_id_L ∅ (∪)). }
  split; [|split; [|split; [|split]]].
  - rewrite Hfinal, seen_foldl. simpl. apply (left_id_L ∅ (∪)).
  - by rewrite Hfinal, result_foldl_length.
  - by rewrite Hfinal, dates_foldl.
  - intros k st. split; [apply Hseen|]. split; [|split].
    + intros x. unfold st. rewrite Hseen. apply elem_of_identifiers.
    + rewrite Hfinal. apply (result_foldl_take initial days k).
    + unfold st, locals_after. rewrite result_foldl_length, length_take. done.
  - intros st r. by exists (entry st r).
Qed.

(** ** Exceptions during the iteration over a shard *)

Lemma classified_stream_yields ds days data_stream :
  Forall2 (λ d r, read_day d = Ok r) ds days →
  classified_stream ((Yield <$> ds) ++ data_stream) =
    days ++ classified_stream data_stream
  ∧ stream_exit ((Yield <$> ds) ++ data_stream) = stream_exit data_stream.
Proof.
  induction 1 as [|d r ds days Hd _ [IH1 IH2]]; csimpl; [done|].
  by rewrite Hd, IH1, IH2.
Qed.

Lemma for_json_file_app directory st earlier later :
  run_exit directory earlier = None →
  for_json_file directory st (earlier ++ later) =
  for_json_file directory (for_json_file directory st earlier).1 later.
Proof.
  revert st. induction earlier as [|json_file earlier IH]; intros st Hexit; [done|].
  simpl in *. destruct (open_file directory json_file) as [s|] eqn:Hopen.
  - rewrite (try_file_classified _ _ _ _ Hopen).
    destruct (file_exit directory json_file); [done | by apply IH].
  - unfold file_exit in Hexit. by rewrite Hopen in Hexit.
Qed.

(** C3, as the code has it. When the stream of a shard raises
    [IncompleteJSONError] after yielding day objects that were read without
    error, the [try] statement ends normally with these records classified:
    one entry each is appended to the result list, their identifiers are in
    the seen set, and the loop goes on with the remaining files from these
    locals.  What the file holds after the point of the error plays no role,
    and the entries and the identifiers are still there when the run ends:
    after files that were processed without exception, what the function
    does is decided by the remaining files, and a list it returns starts
    with the entries of the earlier files and of these records. *)
Theorem truncated_shard_keeps_its_records
    directory st json_file rest ds days post :
  open_file directory json_file =
    Some ((Yield <$> ds) ++ Throw IncompleteJSONError :: post) →
  Forall2 (λ d r, read_day d = Ok r) ds days →
  let st' := foldl classify_day st days in
  let final := (for_json_file directory st (json_file :: rest)).1 in
  try_file directory st json_file = (st', None)
  ∧ for_json_file directory st (json_file :: rest) =
      for_json_file directory st' rest
  ∧ (∃ entries, length entries = length ds
                ∧ result st' = result st ++ entries)
  ∧ seen_subaccounts st' = seen_subaccounts st ∪ identifiers days
  ∧ result st' `prefix_of` result final
  ∧ seen_subaccounts st' ⊆ seen_subaccounts final
  ∧ (∀ earlier, run_exit directory earlier = None →
       let kept :=
         foldl classify_day (for_json_file directory initial earlier).1 days in
       count_dau_returning_new_users_across_files
         (earlier ++ json_file :: rest) directory =
       match for_json_file directory kept rest with
       | (final, None) => Ok (result final)
       | (_, Some e) => Raise e
       end
       ∧ (∀ data,
            count_dau_returning_new_users_across_files
              (earlier ++ json_file :: rest) directory = Ok data →
            result kept `prefix_of` data)).
Proof.
  intros Hopen Hread st' final.
  destruct (classified_stream_yields _ _ (Throw IncompleteJSONError :: post) Hread)
    as [Hdays Hexit]. simpl in Hdays, Hexit. rewrite app_nil_r in Hdays.
  assert (∀ st0, try_file directory st0 json_file =
                 (foldl classify_day st0 days, None)) as Htry.
  { intros st0. rewrite (try_file_classified _ _ _ _ Hopen). unfold file_exit.
    by rewrite Hopen, Hexit, Hdays. }
  assert (for_json_file directory st (json_file :: rest) =
          for_json_file directory st' rest) as Hrun.
  { simpl. by rewrite Htry. }
  split; [apply Htry|]. split; [done|]. split; [|split; [|split; [|split]]].
  - destruct (result_foldl_prefix st days) as [entries Hentries].
    exists entries. split; [|done].
    apply (f_equal length) in Hentries.
    rewrite result_foldl_length, length_app in Hentries.
    apply Forall2_length in Hread. lia.
  - apply seen_foldl.
  - unfold final. rewrite Hrun, for_json_file_classified. apply result_foldl_prefix.
  - unfold final. rewrite Hrun, for_json_file_classified. apply seen_foldl_subseteq.
  - intros earlier Hearlier kept.
    assert (count_dau_returning_new_users_across_files
              (earlier ++ json_file :: rest) directory =
            match for_json_file directory kept rest with
            | (final, None) => Ok (result final)
            | (_, Some e) => Raise e
            end) as Hcount.
    { unfold count_dau_returning_new_users_across_files.
      rewrite (for_json_file_app _ _ _ _ Hearlier). simpl. by rewrite Htry. }
    split; [done|]. intros data. rewrite Hcount, for_json_file_classified.
    destruct (run_exit directory rest); [done|]. intros [= <-].
    apply result_foldl_prefix.
Qed.

Lemma read_day_missing day_data :
  day_data !! "date" = None ∨ day_data !! "subaccountIds" = None →
  ∃ key, (key = "date" ∨ key = "subaccountIds")
         ∧ day_data !! key = None
         ∧ read_day day_data = Raise (KeyError key).
Proof.
  intros Hmissing. unfold read_day, getitem.
  destruct (day_data !! "date") as [date|] eqn:Hdate.
  - destruct Hmissing as [|Hids]; [done|].
    exists "subaccountIds". by rewrite Hids; eauto.
  - exists "date". eauto.
Qed.

(** C4, as the code has it. A day object without [date] or without
    [subaccountIds] raises [KeyError], which the [try] statement does not
    catch: the run ends there with that exception, whatever files remain,
    and the function returns no list.  The records read before it in the
    shard had been classified when the exception was raised. *)
Theorem missing_field_aborts_run
    directory st earlier json_file rest ds days day_data post :
  run_exit directory earlier = None →
  open_file directory json_file = Some ((Yield <$> ds) ++ Yield day_data :: post) →
  Forall2 (λ d r, read_day d = Ok r) ds days →
  day_data !! "date" = None ∨ day_data !! "subaccountIds" = None →
  ∃ key, (key = "date" ∨ key = "subaccountIds")
    ∧ day_data !! key = None
    ∧ try_file directory st json_file =
        (foldl classify_day st days, Some (KeyError key))
    ∧ for_json_file directory st (json_file :: rest) =
        (foldl classify_day st days, Some (KeyError key))
    ∧ count_dau_returning_new_users_across_files
        (earlier ++ json_file :: rest) directory = Raise (KeyError key).
Proof.
  intros Hearlier Hopen Hread Hmissing.
  destruct (read_day_missing _ Hmissing) as (key & Hkey & Hnone & Hraise).
  exists key. split; [done|]. split; [done|].
  destruct (classified_stream_yields _ _ (Yield day_data :: post) Hread)
    as [Hdays Hexit]. simpl in Hdays, Hexit.
  rewrite Hraise in Hdays, Hexit. rewrite app_nil_r in Hdays.
  assert (file_exit directory json_file = Some (KeyError key)) as Hfile.
  { unfold file_exit. by rewrite Hopen, Hexit. }
  assert (∀ st0, try_file directory st0 json_file =
                 (foldl classify_day st0 days, Some (KeyError key))) as Htry.
  { intros st0. by rewrite (try_file_classified _ _ _ _ Hopen), Hdays, Hfile. }
  split; [apply Htry|]. split.
  - simpl. by rewrite Htry.
  - unfold count_dau_returning_new_users_across_files.
    rewrite (for_json_file_app _ _ _ _ Hearlier). simpl. by rewrite Htry.
Qed.

(** ** The order of the shards *)

Lemma tuple_lt_spec a b :
  tuple_lt a b = true ↔ a.1 < b.1 ∨ (a.1 = b.1 ∧ a.2 < b.2).
Proof.
  unfold tuple_lt.
  destruct (Z.ltb_spec a.1 b.1), (Z.eqb_spec a.1 b.1), (Z.ltb_spec a.2 b.2);
    simpl; intuition lia.
Qed.

Lemma tuple_le_spec a b :
  tuple_le a b = true ↔ a.1 < b.1 ∨ (a.1 = b.1 ∧ a.2 ≤ b.2).
Proof.
  unfold tuple_le. rewrite negb_true_iff, <- not_true_iff_false, tuple_lt_spec. lia.
Qed.

Lemma decorate_ok l kl :
  decorate l = Ok kl →
  kl.*2 = l ∧ Forall (λ p, sort_key p.2 = Ok p.1) kl.
Proof.
  revert kl. induction l as [|x l IH]; intros kl; simpl.
  - intros [= <-]. by split.
  - destruct (sort_key x) as [k|e] eqn:Hk; simpl; [|done].
    destruct (decorate l) as [kr|e]; simpl; [|done].
    intros [= <-]. destruct (IH kr eq_refl) as [Heq Hall]. split.
    + csimpl. by rewrite Heq.
    + by constructor.
Qed.

Lemma decorate_total l :
  Forall (λ x, ∃ k, sort_key x = Ok k) l → ∃ kl, decorate l = Ok kl.
Proof.
  induction 1 as [|x l [k Hk] _ [kl IH]]; simpl; [by eexists|].
  rewrite Hk, IH. simpl. by eexists.
Qed.

Lemma insert_keyed_perm x l : insert_keyed x l ≡ₚ x :: l.
Proof.
  induction l as [|y l IH]; simpl; [done|].
  destruct (tuple_lt y.1 x.1); [|done].
  rewrite IH. apply Permutation_swap.
Qed.

Lemma sort_keyed_perm l : sort_keyed l ≡ₚ l.
Proof.
  induction l as [|x l IH]; simpl; [done|].
  by rewrite insert_keyed_perm, IH.
Qed.

Lemma keyed_le_trans a b c : keyed_le a b → keyed_le b c → keyed_le a c.
Proof. unfold keyed_le. rewrite !tuple_le_spec. lia. Qed.

Lemma insert_keyed_sorted x l :
  StronglySorted keyed_le l → StronglySorted keyed_le (insert_keyed x l).
Proof.
  induction 1 as [|y l Hsorted IH Hall]; simpl.
  - repeat constructor.
  - destruct (tuple_lt y.1 x.1) eqn:Hlt.
    + constructor; [done|]. rewrite insert_keyed_perm. constructor; [|done].
      unfold keyed_le. apply tuple_le_spec. apply tuple_lt_spec in Hlt. lia.
    + assert (keyed_le x y) as Hxy.
      { unfold keyed_le, tuple_le. by rewrite Hlt. }
      constructor; [by constructor|]. constructor; [done|].
      eapply Forall_impl; [done|]. intros z. by apply keyed_le_trans.
Qed.

Lemma sort_keyed_sorted l : StronglySorted keyed_le (sort_keyed l).
Proof.
  induction l as [|x l IH]; simpl; [constructor | by apply insert_keyed_sorted].
Qed.

Lemma StronglySorted_lookup_lt {A} (R : relation A) (l : list A) i j a b :
  StronglySorted R l → l !! i = Some a → l !! j = Some b → (i < j)%nat → R a b.
Proof.
  intros Hsorted. revert i j. induction Hsorted as [|x l _ IH Hall]; intros i j;
    [done|].
  destruct i as [|i], j as [|j]; simpl; try lia.
  - intros [= <-] Hb _. rewrite Forall_forall in Hall. apply Hall.
    by eapply list_elem_of_lookup_2.
  - intros Ha Hb Hlt. apply (IH i j Ha Hb). lia.
Qed.

(** C7. When every file of the listing that ends in [.json] has a key, the
    listing of the shards succeeds and returns exactly these files, each as
    often as the listing has it, in ascending order of their (year, month)
    keys: of two returned files, the one at the smaller position has the
    smaller or equal key, and a file with a strictly smaller key than
    another one comes before it. *)
Theorem shards_listed_in_year_month_order listing :
  Forall (λ f, ∃ key, sort_key f = Ok key)
         (List.filter (λ f, endswith f ".json") listing) →
  ∃ json_files,
    list_json_files listing = Ok json_files
    ∧ json_files ≡ₚ List.filter (λ f, endswith f ".json") listing
    ∧ (∀ f, f ∈ json_files ↔ f ∈ listing ∧ endswith f ".json" = true)
    ∧ (∀ i j f g, json_files !! i = Some f → json_files !! j = Some g →
         (i < j)%nat →
         ∃ year_f month_f year_g month_g,
           sort_key f = Ok (year_f, month_f) ∧ sort_key g = Ok (year_g, month_g)
           ∧ (year_f < year_g ∨ (year_f = year_g ∧ month_f ≤ month_g)))
    ∧ (∀ i j f g year_f month_f year_g month_g,
         json_files !! i = Some f → json_files !! j = Some g →
         sort_key f = Ok (year_f, month_f) → sort_key g = Ok (year_g, month_g) →
         year_f < year_g ∨ (year_f = year_g ∧ month_f < month_g) →
         (i < j)%nat).
Proof.
  intros Hkeys. unfold list_json_files, sort_by_key.
  set (files := List.filter (λ f, endswith f ".json") listing) in *.
  destruct (decorate_total _ Hkeys) as [kl Hkl]. rewrite Hkl. simpl.
  destruct (decorate_ok _ _ Hkl) as [Hfiles Hall].
  assert ((sort_keyed kl).*2 ≡ₚ files) as Hperm.
  { by rewrite sort_keyed_perm, Hfiles. }
  assert (Forall (λ p, sort_key p.2 = Ok p.1) (sort_keyed kl)) as Hall'.
  { by rewrite sort_keyed_perm. }
  assert (∀ i f, (sort_keyed kl).*2 !! i = Some f →
            ∃ k, sort_keyed kl !! i = Some (k, f) ∧ sort_key f = Ok k) as Hat.
  { intros i f Hi. rewrite list_lookup_fmap in Hi.
    destruct (sort_keyed kl !! i) as [[k f']|] eqn:Hp; simpl in Hi; [|done].
    injection Hi as ->. exists k. split; [done|].
    rewrite Forall_forall in Hall'.
    apply (Hall' (k, f)). by eapply list_elem_of_lookup_2. }
  assert (∀ i j f g, (sort_keyed kl).*2 !! i = Some f →
            (sort_keyed kl).*2 !! j = Some g → (i < j)%nat →
            ∃ kf kg, sort_key f = Ok kf ∧ sort_key g = Ok kg
                     ∧ tuple_le kf kg = true) as Hordered.
  { intros i j f g Hi Hj Hlt.
    destruct (Hat i f Hi) as (kf & Hpi & Hkf), (Hat j g Hj) as (kg & Hpj & Hkg).
    exists kf, kg. split; [done|]. split; [done|].
    apply (StronglySorted_lookup_lt keyed_le _ i j (kf, f) (kg, g)
             (sort_keyed_sorted kl) Hpi Hpj Hlt). }
  eexists. split; [done|]. split; [done|]. split; [|split].
  - intros f. rewrite Hperm. unfold files.
    rewrite !list_elem_of_In. apply (filter_In (λ f, endswith f ".json")).
  - intros i j f g Hi Hj Hlt.
    destruct (Hordered i j f g Hi Hj Hlt) as ([yf mf] & [yg mg] & Hf & Hg & Hle).
    exists yf, mf, yg, mg. apply tuple_le_spec in Hle. simpl in Hle. done.
  - intros i j f g yf mf yg mg Hi Hj Hf Hg Hlt.
    destruct (decide (i < j)%nat) as [|Hge]; [done|]. exfalso.
    destruct (decide (i = j)) as [->|Hne].
    + rewrite Hi in Hj. injection Hj as ->. rewrite Hf in Hg.
      injection Hg as -> ->. lia.
    + destruct (Hordered j i g f Hj Hi ltac:(lia)) as (kg & kf & Hg' & Hf' & Hle).
      rewrite Hf in Hf'. rewrite Hg in Hg'. injection Hf' as <-. injection Hg' as <-.
      apply tuple_le_spec in Hle. simpl in Hle. lia.
Qed.

(** ** Two shards of one day each *)

Lemma read_day_object date ids :
  read_day (day_object date ids) =
  Ok {| day_date := JStr date; current_subaccounts := list_to_set ids |}.
Proof.
  apply read_day_array; unfold day_object.
  - apply lookup_insert_eq.
  - rewrite lookup_insert_ne; [apply lookup_singleton_eq | done].
Qed.

Lemma try_file_one_day directory st json_file day_data r :
  open_file directory json_file = Some [Yield day_data] →
  read_day day_data = Ok r →
  try_file directory st json_file = (classify_day st r, None).
Proof.
  intros Hopen Hread. unfold try_file. rewrite Hopen. simpl.
  unfold day_body. by rewrite Hread.
Qed.

Lemma size_two (a b : string) :
  a ≠ b → size (list_to_set (C := gset string) [a; b]) = 2%nat.
Proof.
  intros Hne.
  replace (list_to_set (C := gset string) [a; b])
    with ({[a]} ∪ {[b]} : gset string) by set_solver.
  rewrite size_union; [by rewrite !size_singleton | set_solver].
Qed.

(** C5. The seen set is carried from one shard to the next.  With a first
    shard holding the day 2024-01-15 with identifiers [X] and [Y], and a
    second one holding the day 2024-02-01 with [Y] and [Z], the three
    identifiers being distinct, the script lists the first shard before the
    second, and the function returns two entries, the one of 2024-02-01 with
    [dau = 2], [returningAddresses = 1] and [newUsers = 1]. *)
Theorem seen_set_crosses_shard_boundary (X Y Z : string) :
  X ≠ Y → X ≠ Z → Y ≠ Z →
  list_json_files (two_shards X Y Z).*1 =
    Ok ["trades_2024_1.json"; "trades_2024_2.json"]
  ∧ count_dau_returning_new_users_across_files
      ["trades_2024_1.json"; "trades_2024_2.json"] (two_shards X Y Z) =
    Ok [ {| date := JStr "2024-01-15";
            dau := 2; returningAddresses := 0; newUsers := 2 |};
         {| date := JStr "2024-02-01";
            dau := 2; returningAddresses := 1; newUsers := 1 |} ].
Proof.
  intros HXY HXZ HYZ. split; [done|].
  unfold count_dau_returning_new_users_across_files.
  set (r1 := {| day_date := JStr "2024-01-15";
                current_subaccounts := list_to_set [X; Y] |}).
  set (r2 := {| day_date := JStr "2024-02-01";
                current_subaccounts := list_to_set [Y; Z] |}).
  assert (∀ st, try_file (two_shards X Y Z) st "trades_2024_1.json"
                = (classify_day st r1, None)) as H1.
  { intros st. by apply (try_file_one_day _ _ _ (day_object "2024-01-15" [X; Y])),
      read_day_object. }
  assert (∀ st, try_file (two_shards X Y Z) st "trades_2024_2.json"
                = (classify_day st r2, None)) as H2.
  { intros st. by apply (try_file_one_day _ _ _ (day_object "2024-02-01" [Y; Z])),
      read_day_object. }
  cbn [for_json_file]. rewrite H1, H2.
  unfold classify_day, initial, r1, r2, len.
  cbn [result seen_subaccounts current_subaccounts day_date app].
  rewrite (size_two X Y HXY), (size_two Y Z HYZ).
  replace (list_to_set [X; Y] ∩ ∅) with (∅ : gset string) by set_solver.
  replace (list_to_set [Y; Z] ∩ (∅ ∪ list_to_set [X; Y]))
    with ({[Y]} : gset string) by set_solver.
  by rewrite size_empty, size_singleton.
Qed.

(** ** The two categories of the script *)

Lemma json_dump_outcome data :
  (json_dump data = (data, None)
   ∧ Forall (λ m, serializable (date m) = true) data)
  ∨ ∃ written m rest,
      json_dump data = (written, Some TypeError)
      ∧ data = written ++ m :: rest
      ∧ Forall (λ m, serializable (date m) = true) written
      ∧ serializable (date m) = false.
Proof.
  induction data as [|m data IH]; simpl; [by left|].
  destruct (serializable (date m)) eqn:Hm.
  - destruct IH as [[-> Hall] | (written & m' & rest & -> & -> & Hall & Hm')].
    + left. split; [done | by constructor].
    + right. exists (m :: written), m', rest. repeat split; try done.
      by constructor.
  - right. by exists [], m, data.
Qed.

Lemma main_outcome market_type output_filename w :
  (main market_type output_filename w =
     (w, (main market_type output_filename w).2)
   ∧ (main market_type output_filename w).2 ≠ None)
  ∨ ∃ directory json_files data docs,
      inputs w !! market_type = Some directory
      ∧ list_json_files directory.*1 = Ok json_files
      ∧ count_dau_returning_new_users_across_files json_files directory = Ok data
      ∧ outputs w = Some docs
      ∧ main market_type output_filename w =
        match json_dump data with
        | (_, None) =>
            ({| inputs := inputs w;
                outputs := Some (<[output_filename := Complete data]> docs) |},
             None)
        | (written, Some e) =>
            ({| inputs := inputs w;
                outputs := Some (<[output_filename := Truncated written]> docs) |},
             Some e)
        end.
Proof.
  unfold main.
  destruct (inputs w !! market_type) as [directory|] eqn:Hdir; [|by left].
  destruct (list_json_files directory.*1) as [json_files|] eqn:Hlist;
    [|by left].
  destruct (count_dau_returning_new_users_across_files json_files directory)
    as [data|] eqn:Hcount; [|by left].
  destruct (outputs w) as [docs|] eqn:Hdocs; [|by left].
  right. by exists directory, json_files, data, docs.
Qed.

(** C6, as the code has it. The script handles no exception of [main].
    When the call for the spot category ends with an exception, the script
    ends with it where that call stopped: the derivative category is not
    processed and its document is not written.  When the call for the spot
    category returns, its document has been written, the script goes on with
    the derivative category, and the document stays whether that call fails
    or not. *)
Theorem script_stops_at_first_failure w :
  match main "spot" "spot_dau_returning_new_users_data.json" w with
  | (w', Some e) =>
      run_script w = (w', Some e)
      ∧ inputs w' = inputs w
      ∧ outputs w'
          ≫= (λ docs, docs !! "derivative_dau_returning_new_users_data.json") =
        outputs w
          ≫= (λ docs, docs !! "derivative_dau_returning_new_users_data.json")
  | (w', None) =>
      run_script w =
        main "derivative" "derivative_dau_returning_new_users_data.json" w'
      ∧ ∃ docs docs' data,
          outputs w' = Some docs
          ∧ docs !! "spot_dau_returning_new_users_data.json"
            = Some (Complete data)
          ∧ outputs (run_script w).1 = Some docs'
          ∧ docs' !! "spot_dau_returning_new_users_data.json"
            = Some (Complete data)
  end.
Proof.
  unfold run_script.
  destruct (main_outcome "spot" "spot_dau_returning_new_users_data.json" w)
    as [[Hsame Hfail] | (directory & json_files & data & docs & _ & _ & _
                         & Hdocs & Hmain)].
  - rewrite Hsame.
    by destruct (main "spot" "spot_dau_returning_new_users_data.json" w).2.
  - rewrite Hmain.
    destruct (json_dump_outcome data)
      as [[-> _] | (written & m & rest & -> & _)].
    + split; [done|]. simpl.
      set (docs1 := <["spot_dau_returning_new_users_data.json" := Complete data]>
                      docs).
      destruct (main_outcome "derivative"
        "derivative_dau_returning_new_users_data.json"
        {| inputs := inputs w; outputs := Some docs1 |})
        as [[Hsame _] | (d & f & data' & docs' & _ & _ & _ & Hdocs' & Hder)].
      * rewrite Hsame. exists docs1, docs1, data.
        unfold docs1. by rewrite lookup_insert_eq.
      * rewrite Hder. simpl in Hdocs'. injection Hdocs' as <-.
        exists docs1.
        destruct (json_dump data') as [written [e|]]; simpl;
          eexists _, data; (split; [done|]); unfold docs1;
          rewrite lookup_insert_eq; (split; [done|]); (split; [done|]);
          (rewrite lookup_insert_ne; [apply lookup_insert_eq | done]).
    + simpl. split; [done|]. split; [done|]. rewrite Hdocs. simpl.
      by rewrite lookup_insert_ne.
Qed.

(** * The properties on concrete shards *)

(** [classify_by_the_algorithm] on the second day of [two_shards]. *)
Lemma classify_by_the_algorithm_second_day :
  classified (two_shards "X" "Y" "Z") two_files !! 1%nat =
    Some {| day_date := JStr "2024-02-01";
            current_subaccounts := list_to_set ["Y"; "Z"] |}
  ∧ result (for_json_file (two_shards "X" "Y" "Z") initial two_files).1 !! 1%nat =
    Some {| date := JStr "2024-02-01";
            dau := 2; returningAddresses := 1; newUsers := 1 |}.
Proof.
  assert (classified (two_shards "X" "Y" "Z") two_files !! 1%nat =
            Some {| day_date := JStr "2024-02-01";
                    current_subaccounts := list_to_set ["Y"; "Z"] |}) as Hday.
  { vm_compute. reflexivity. }
  split; [exact Hday|].
  exact (proj1 (proj2 (classify_by_the_algorithm _ _ _ _ Hday))).
Defined.

(** [metrics_invariant] on the entry of that day. *)
Lemma metrics_invariant_second_day :
  let m := {| date := JStr "2024-02-01";
              dau := 2; returningAddresses := 1; newUsers := 1 |} in
  result (for_json_file (two_shards "X" "Y" "Z") initial two_files).1 !! 1%nat =
    Some m
  ∧ dau m = returningAddresses m + newUsers m
  ∧ 0 ≤ returningAddresses m ≤ dau m
  ∧ returningAddresses m ≤
      Z.of_nat (size (seen_subaccounts
                        (locals_after (two_shards "X" "Y" "Z") two_files 1))).
Proof.
  intros m.
  assert (result (for_json_file (two_shards "X" "Y" "Z") initial two_files).1
            !! 1%nat = Some m) as Hm.
  { vm_compute. reflexivity. }
  split; [exact Hm|].
  exact (proj1 (metrics_invariant _ _ _ _ Hm)).
Defined.

(** [first_day_all_new] on the first entry of [two_shards]. *)
Lemma first_day_all_new_first_entry :
  let m := {| date := JStr "2024-01-15";
              dau := 2; returningAddresses := 0; newUsers := 2 |} in
  result (for_json_file (two_shards "X" "Y" "Z") initial two_files).1 !! 0%nat =
    Some m
  ∧ returningAddresses m = 0
  ∧ newUsers m = dau m.
Proof.
  intros m.
  assert (result (for_json_file (two_shards "X" "Y" "Z") initial two_files).1
            !! 0%nat = Some m) as Hm.
  { vm_compute. reflexivity. }
  split; [exact Hm|].
  exact (proj2 (first_day_all_new _ _ _ Hm)).
Defined.

(** [seen_set_crosses_shard_boundary] with the identifiers X, Y and Z. *)
Lemma seen_set_crosses_shard_boundary_XYZ :
  count_dau_returning_new_users_across_files two_files (two_shards "X" "Y" "Z") =
    Ok [ {| date := JStr "2024-01-15";
            dau := 2; returningAddresses := 0; newUsers := 2 |};
         {| date := JStr "2024-02-01";
            dau := 2; returningAddresses := 1; newUsers := 1 |} ].
Proof.
  refine (proj2 (seen_set_crosses_shard_boundary "X" "Y" "Z" _ _ _));
    discriminate.
Defined.

(** [truncated_shard_keeps_its_records] on [truncated_after_three]: the three
    days read before the error are classified, the second shard is
    processed from the locals they leave, and the function returns their
    three entries and the entry of the second shard. *)
Lemma truncated_after_three_continues :
  let days :=
    [ {| day_date := JStr "2024-01-01";
         current_subaccounts := list_to_set ["A"; "B"] |};
      {| day_date := JStr "2024-01-02";
         current_subaccounts := list_to_set ["B"; "C"] |};
      {| day_date := JStr "2024-01-03";
         current_subaccounts := list_to_set ["A"; "D"] |} ] in
  for_json_file truncated_after_three initial two_files =
    for_json_file truncated_after_three (foldl classify_day initial days)
      ["trades_2024_2.json"]
  ∧ count_dau_returning_new_users_across_files two_files truncated_after_three =
    Ok [ {| date := JStr "2024-01-01";
            dau := 2; returningAddresses := 0; newUsers := 2 |};
         {| date := JStr "2024-01-02";
            dau := 2; returningAddresses := 1; newUsers := 1 |};
         {| date := JStr "2024-01-03";
            dau := 2; returningAddresses := 1; newUsers := 1 |};
         {| date := JStr "2024-02-01";
            dau := 2; returningAddresses := 1; newUsers := 1 |} ].
Proof.
  intros days.
  destruct (truncated_shard_keeps_its_records
    truncated_after_three initial "trades_2024_1.json" ["trades_2024_2.json"]
    [ day_object "2024-01-01" ["A"; "B"];
      day_object "2024-01-02" ["B"; "C"];
      day_object "2024-01-03" ["A"; "D"] ]
    days [Yield (day_object "2024-01-04" ["E"])])
    as (_ & Hrun & _ & _ & _ & _ & Hcount).
  - reflexivity.
  - unfold days.
    repeat (constructor; [vm_compute; reflexivity|]). constructor.
  - split; [exact Hrun|].
    etrans; [exact (proj1 (Hcount [] eq_refl)) | vm_compute; reflexivity].
Defined.

(** C3 as stated does not hold on [cut_inside_a_character].  The stream of
    the first shard ends unexpectedly inside a character of several bytes:
    the file is read as text, the read raises [UnicodeDecodeError], which
    the [try] statement does not catch, and the function raises it: the
    three entries in the result list are not returned and the second shard
    is not processed. *)
Lemma cut_inside_a_character_aborts_the_run :
  for_json_file cut_inside_a_character initial two_files =
    ({| seen_subaccounts := list_to_set ["A"; "B"; "C"; "D"];
        result :=
          [ {| date := JStr "2024-01-01";
               dau := 2; returningAddresses := 0; newUsers := 2 |};
            {| date := JStr "2024-01-02";
               dau := 2; returningAddresses := 1; newUsers := 1 |};
            {| date := JStr "2024-01-03";
               dau := 2; returningAddresses := 1; newUsers := 1 |} ] |},
     Some UnicodeDecodeError)
  ∧ count_dau_returning_new_users_across_files two_files cut_inside_a_character
    = Raise UnicodeDecodeError.
Proof. split; vm_compute; reflexivity. Qed.

(** The list the function returns on [truncated_after_three]. *)
Example truncated_after_three_result :
  count_dau_returning_new_users_across_files two_files truncated_after_three =
  Ok [ {| date := JStr "2024-01-01";
          dau := 2; returningAddresses := 0; newUsers := 2 |};
       {| date := JStr "2024-01-02";
          dau := 2; returningAddresses := 1; newUsers := 1 |};
       {| date := JStr "2024-01-03";
          dau := 2; returningAddresses := 1; newUsers := 1 |};
       {| date := JStr "2024-02-01";
          dau := 2; returningAddresses := 1; newUsers := 1 |} ].
Proof. vm_compute. reflexivity. Qed.

(** C4 as stated does not hold on [second_day_without_date].  With an
    unexpected end of the stream in place of the second day object the
    function returns the entries of 2024-01-01 and of 2024-02-01; with the
    day object that has no [date], it raises [KeyError] and returns nothing,
    the second shard not being processed. *)
Lemma missing_date_is_not_handled_like_truncation :
  count_dau_returning_new_users_across_files two_files second_day_truncated =
    Ok [ {| date := JStr "2024-01-01";
            dau := 2; returningAddresses := 0; newUsers := 2 |};
         {| date := JStr "2024-02-01";
            dau := 2; returningAddresses := 0; newUsers := 2 |} ]
  ∧ count_dau_returning_new_users_across_files two_files second_day_without_date =
    Raise (KeyError "date")
  ∧ for_json_file second_day_without_date initial two_files =
    ({| seen_subaccounts := list_to_set ["A"; "B"];
        result := [ {| date := JStr "2024-01-01";
                       dau := 2; returningAddresses := 0; newUsers := 2 |} ] |},
     Some (KeyError "date")).
Proof. repeat split; vm_compute; reflexivity. Qed.

(** [missing_field_aborts_run] on [second_day_without_date]. *)
Lemma missing_field_aborts_run_without_date :
  ∃ key, (key = "date" ∨ key = "subaccountIds")
    ∧ count_dau_returning_new_users_across_files two_files second_day_without_date =
      Raise (KeyError key).
Proof.
  destruct (missing_field_aborts_run second_day_without_date initial []
    "trades_2024_1.json" ["trades_2024_2.json"]
    [ day_object "2024-01-01" ["A"; "B"] ]
    [ {| day_date := JStr "2024-01-01";
         current_subaccounts := list_to_set ["A"; "B"] |} ]
    {[ "subaccountIds" := JArr ["B"; "C"] ]}
    [ Yield (day_object "2024-01-03" ["A"; "D"]) ])
    as (key & Hkey & _ & _ & _ & Hcount).
  - reflexivity.
  - reflexivity.
  - constructor; [vm_compute; reflexivity | constructor].
  - left. vm_compute. reflexivity.
  - exists key. split; [exact Hkey | exact Hcount].
Defined.

(** C6 as stated does not hold on [derivative_only].  The call for
    the derivative category alone returns and writes its document; the
    script ends with the [FileNotFoundError] of the spot category and leaves
    the [outputs] directory empty. *)
Lemma missing_spot_directory_stops_the_script :
  main "spot" "spot_dau_returning_new_users_data.json" derivative_only =
    (derivative_only, Some FileNotFoundError)
  ∧ main "derivative" "derivative_dau_returning_new_users_data.json"
      derivative_only =
    ({| inputs := inputs derivative_only;
        outputs := Some {[ "derivative_dau_returning_new_users_data.json" :=
          Complete
            [ {| date := JStr "2024-01-15";
                 dau := 2; returningAddresses := 0; newUsers := 2 |};
              {| date := JStr "2024-02-01";
                 dau := 2; returningAddresses := 1; newUsers := 1 |} ] ]} |},
     None)
  ∧ run_script derivative_only = (derivative_only, Some FileNotFoundError)
  ∧ outputs (run_script derivative_only).1 = Some ∅.
Proof. repeat split; vm_compute; reflexivity. Qed.

(** [shards_listed_in_year_month_order] on a listing out of order, with a
    file of another type. *)
Lemma shards_listed_in_year_month_order_listing :
  list_json_files
    ["trades_2024_10.json"; "notes.txt"; "trades_2024_2.json";
     "trades_2023_12.json"] =
  Ok ["trades_2023_12.json"; "trades_2024_2.json"; "trades_2024_10.json"].
Proof.
  destruct (shards_listed_in_year_month_order
    ["trades_2024_10.json"; "notes.txt"; "trades_2024_2.json";
     "trades_2023_12.json"]) as (json_files & Hlist & _).
  - vm_compute List.filter.
    repeat (constructor; [eexists; vm_compute; reflexivity|]). constructor.
  - rewrite Hlist. vm_compute in Hlist. symmetry. exact Hlist.
Defined.

(** * Further properties of the aggregation *)

Lemma size_split (current seen : gset string) :
  size current = (size (current ∩ seen) + size (current ∖ seen))%nat.
Proof.
  rewrite <- size_union by set_solver. f_equal. apply set_eq. intros x.
  destruct (decide (x ∈ seen)); set_solver.
Qed.

Lemma difference_empty_subseteq (X Y : gset string) : X ∖ Y ≡ ∅ ↔ X ⊆ Y.
Proof.
  split.
  - intros Hempty x Hx. destruct (decide (x ∈ Y)) as [|Hn]; [done|].
    exfalso. apply (not_elem_of_empty (C := gset string) x).
    rewrite <- Hempty. set_solver.
  - intros Hsub. set_solver.
Qed.

Lemma entry_new_users st r :
  newUsers (entry st r) =
  Z.of_nat (size (current_subaccounts r ∖ seen_subaccounts st)).
Proof.
  simpl. unfold len.
  rewrite (size_split (current_subaccounts r) (seen_subaccounts st)). lia.
Qed.

(** X1. The [newUsers] of an entry is the number of identifiers of its day
    that are not in the seen set when the day is classified, although the
    code computes it as a difference of two sizes.  It is 0 exactly when
    every identifier of the day had been seen, and [returningAddresses] is 0
    exactly when none had. *)
Theorem new_users_are_the_unseen_identifiers directory json_files k m :
  result (for_json_file directory initial json_files).1 !! k = Some m →
  ∃ r, classified directory json_files !! k = Some r
    ∧ newUsers m =
        Z.of_nat (size (current_subaccounts r
                        ∖ seen_subaccounts (locals_after directory json_files k)))
    ∧ (newUsers m = 0
       ↔ current_subaccounts r
         ⊆ seen_subaccounts (locals_after directory json_files k))
    ∧ (returningAddresses m = 0
       ↔ current_subaccounts r
         ## seen_subaccounts (locals_after directory json_files k)).
Proof.
  intros Hm. destruct (result_lookup_entry _ _ _ _ Hm) as (r & Hr & ->).
  exists r. split; [done|]. split; [apply entry_new_users|]. split.
  - rewrite entry_new_users. change 0 with (Z.of_nat 0).
    rewrite Nat2Z.inj_iff, size_empty_iff. apply difference_empty_subseteq.
  - simpl. unfold len. change 0 with (Z.of_nat 0).
    rewrite Nat2Z.inj_iff, size_empty_iff, disjoint_intersection. done.
Qed.

Lemma new_users_are_the_unseen_identifiers_second_day :
  ∃ r, classified (two_shards "X" "Y" "Z") two_files !! 1%nat = Some r
    ∧ 1 = Z.of_nat (size (current_subaccounts r
            ∖ seen_subaccounts (locals_after (two_shards "X" "Y" "Z") two_files 1))).
Proof.
  destruct (new_users_are_the_unseen_identifiers (two_shards "X" "Y" "Z")
    two_files 1
    {| date := JStr "2024-02-01";
       dau := 2; returningAddresses := 1; newUsers := 1 |})
    as (r & Hr & Hnew & _).
  - vm_compute. reflexivity.
  - exists r. split; [exact Hr | exact Hnew].
Defined.

Lemma total_new_app l1 l2 : total_new (l1 ++ l2) = total_new l1 + total_new l2.
Proof.
  unfold total_new. induction l1 as [|m l1 IH]; simpl; [done|]. rewrite IH. lia.
Qed.

Lemma classify_day_size st r :
  Z.of_nat (size (seen_subaccounts (classify_day st r))) =
  Z.of_nat (size (seen_subaccounts st)) + newUsers (entry st r).
Proof.
  rewrite entry_new_users. simpl. rewrite size_union_alt. lia.
Qed.

Lemma total_new_foldl st days :
  total_new (result (foldl classify_day st days))
  + Z.of_nat (size (seen_subaccounts st)) =
  total_new (result st)
  + Z.of_nat (size (seen_subaccounts (foldl classify_day st days))).
Proof.
  revert st. induction days as [|r days IH]; intros st; simpl; [done|].
  pose proof (IH (classify_day st r)) as Hrest.
  rewrite classify_day_size in Hrest. rewrite classify_day_entry in Hrest at 2.
  simpl result in Hrest. rewrite total_new_app in Hrest.
  unfold total_new at 3 in Hrest. simpl in Hrest. simpl. lia.
Qed.

(** X2. The seen set grows by exactly the new users of each day: its size
    after a record is its size before plus the [newUsers] of the entry, and
    at the end of a run, whether an exception ended it or not, the
    [newUsers] of all entries add up to the size of the seen set.  The list
    the function returns has this total too. *)
Theorem new_users_add_up_to_the_seen_set directory json_files :
  total_new (result (for_json_file directory initial json_files).1) =
    Z.of_nat (size (seen_subaccounts
                      (for_json_file directory initial json_files).1))
  ∧ (∀ k m,
       result (for_json_file directory initial json_files).1 !! k = Some m →
       Z.of_nat (size (seen_subaccounts
                         (locals_after directory json_files (S k)))) =
       Z.of_nat (size (seen_subaccounts (locals_after directory json_files k)))
       + newUsers m)
  ∧ (∀ data,
       count_dau_returning_new_users_across_files json_files directory = Ok data →
       total_new data = Z.of_nat (size (identifiers (classified directory json_files)))).
Proof.
  assert (total_new (result (for_json_file directory initial json_files).1) =
          Z.of_nat (size (seen_subaccounts
                            (for_json_file directory initial json_files).1)))
    as Htotal.
  { rewrite for_json_file_classified. simpl.
    pose proof (total_new_foldl initial (classified directory json_files)) as H.
    change (seen_subaccounts initial) with (∅ : gset string) in H.
    rewrite size_empty in H. change (total_new (result initial)) with 0 in H.
    lia. }
  split; [done|]. split.
  - intros k m Hm. destruct (result_lookup_entry _ _ _ _ Hm) as (r & Hr & ->).
    rewrite (locals_after_succ _ _ _ _ Hr). apply classify_day_size.
  - intros data Hdata. rewrite count_classified in Hdata.
    rewrite for_json_file_classified in Htotal. simpl in Htotal.
    destruct (run_exit directory json_files); [done|]. injection Hdata as <-.
    rewrite Htotal, seen_foldl. simpl. by rewrite (left_id_L ∅ (∪)).
Qed.

Lemma run_exit_None directory json_files :
  run_exit directory json_files = None
  ↔ Forall (λ f, file_exit directory f = None) json_files.
Proof.
  induction json_files as [|f rest IH]; simpl; [by split|].
  rewrite Forall_cons, <- IH.
  destruct (file_exit directory f); [|naive_solver].
  split; [done | by intros []].
Qed.

Lemma classified_complete directory json_files :
  run_exit directory json_files = None →
  classified directory json_files = json_files ≫= classified_file directory.
Proof.
  induction json_files as [|f rest IH]; [done|]. intros Hexit. simpl in Hexit.
  destruct (file_exit directory f) eqn:Hfile; [done|].
  rewrite bind_cons. simpl classified. rewrite Hfile. unfold classified_file.
  destruct (open_file directory f) eqn:Hopen; [by rewrite IH|].
  unfold file_exit in Hfile. by rewrite Hopen in Hfile.
Qed.

(** X3. When a run over complete shards ends without exception, a run over
    the same files in any other order does too, and it ends with the same
    seen set, the same number of entries and the same total of new users:
    the order of the shards matters to the entries of the days, not to the
    totals. *)
Theorem shard_order_keeps_totals directory json_files json_files' :
  json_files ≡ₚ json_files' →
  run_exit directory json_files = None →
  run_exit directory json_files' = None
  ∧ seen_subaccounts (for_json_file directory initial json_files').1 =
    seen_subaccounts (for_json_file directory initial json_files).1
  ∧ total_new (result (for_json_file directory initial json_files').1) =
    total_new (result (for_json_file directory initial json_files).1)
  ∧ length (result (for_json_file directory initial json_files').1) =
    length (result (for_json_file directory initial json_files).1).
Proof.
  intros Hperm Hexit.
  assert (run_exit directory json_files' = None) as Hexit'.
  { apply run_exit_None. rewrite <- Hperm. by apply run_exit_None. }
  assert (classified directory json_files' ≡ₚ classified directory json_files)
    as Hdays.
  { rewrite !classified_complete by done. by rewrite Hperm. }
  rewrite !for_json_file_classified. cbn [fst].
  assert (seen_subaccounts
            (foldl classify_day initial (classified directory json_files')) =
          seen_subaccounts
            (foldl classify_day initial (classified directory json_files)))
    as Hseen.
  { rewrite !seen_foldl. unfold identifiers. by rewrite Hdays. }
  split; [done|]. split; [done|]. split.
  - pose proof (total_new_foldl initial (classified directory json_files)) as H.
    pose proof (total_new_foldl initial (classified directory json_files')) as H'.
    rewrite Hseen in H'. lia.
  - rewrite !result_foldl_length. by rewrite Hdays.
Qed.

Lemma shard_order_keeps_totals_swapped :
  seen_subaccounts
    (for_json_file (two_shards "X" "Y" "Z") initial
       ["trades_2024_2.json"; "trades_2024_1.json"]).1 =
  seen_subaccounts (for_json_file (two_shards "X" "Y" "Z") initial two_files).1
  ∧ total_new (result (for_json_file (two_shards "X" "Y" "Z") initial
                         ["trades_2024_2.json"; "trades_2024_1.json"]).1) =
    total_new (result (for_json_file (two_shards "X" "Y" "Z") initial
                         two_files).1).
Proof.
  destruct (shard_order_keeps_totals (two_shards "X" "Y" "Z") two_files
    ["trades_2024_2.json"; "trades_2024_1.json"]) as (_ & Hseen & Htotal & _).
  - apply Permutation_swap.
  - reflexivity.
  - split; [exact Hseen | exact Htotal].
Defined.

Lemma read_day_raises day_data e :
  read_day day_data = Raise e →
  e = KeyError "date" ∨ e = KeyError "subaccountIds" ∨ e = TypeError.
Proof.
  unfold read_day, getitem.
  destruct (day_data !! "date"); simpl; [|intros [= <-]; eauto].
  destruct (day_data !! "subaccountIds") as [[]|]; simpl; intros [= <-]; eauto.
Qed.

(** X4. [IncompleteJSONError] is the only exception a run survives.  When
    the iteration over a shard stops with another exception, raised by the
    stream or by the reading of a day object, the run ends with it, whatever
    files remain, and the function returns no list; reading a day object
    raises [KeyError] or [TypeError] only, so it always ends the run. *)
Theorem other_exceptions_abort_the_run
    directory st earlier json_file rest ds days ev e post :
  run_exit directory earlier = None →
  open_file directory json_file = Some ((Yield <$> ds) ++ ev :: post) →
  Forall2 (λ d r, read_day d = Ok r) ds days →
  stops_with ev e →
  e ≠ IncompleteJSONError →
  for_json_file directory st (json_file :: rest) =
    (foldl classify_day st days, Some e)
  ∧ count_dau_returning_new_users_across_files
      (earlier ++ json_file :: rest) directory = Raise e
  ∧ (∀ day_data e', read_day day_data = Raise e' → e' ≠ IncompleteJSONError).
Proof.
  intros Hearlier Hopen Hread Hstop Hne.
  destruct (classified_stream_yields _ _ (ev :: post) Hread) as [Hdays Hexit].
  assert (classified_stream (ev :: post) = [] ∧ stream_exit (ev :: post) = Some e)
    as [Hnil Hev].
  { destruct Hstop as [->|(day_data & -> & Hraise)]; simpl; [done|].
    by rewrite Hraise. }
  rewrite Hnil, app_nil_r in Hdays. rewrite Hev in Hexit.
  assert (∀ st0, try_file directory st0 json_file =
                 (foldl classify_day st0 days, Some e)) as Htry.
  { intros st0. rewrite (try_file_classified _ _ _ _ Hopen), Hdays.
    unfold file_exit. rewrite Hopen, Hexit. by destruct e. }
  split; [|split].
  - simpl. by rewrite Htry.
  - unfold count_dau_returning_new_users_across_files.
    rewrite (for_json_file_app _ _ _ _ Hearlier). simpl. by rewrite Htry.
  - intros day_data e' Hraise.
    destruct (read_day_raises _ _ Hraise) as [->|[->| ->]]; done.
Qed.

Lemma other_exceptions_abort_the_run_invalid :
  count_dau_returning_new_users_across_files two_files invalid_first_shard =
  Raise JSONError.
Proof.
  refine (proj1 (proj2 (other_exceptions_abort_the_run invalid_first_shard
    initial [] "trades_2024_1.json" ["trades_2024_2.json"]
    [ day_object "2024-01-01" ["A"; "B"] ]
    [ {| day_date := JStr "2024-01-01";
         current_subaccounts := list_to_set ["A"; "B"] |} ]
    (Throw JSONError) JSONError
    [ Yield (day_object "2024-01-03" ["A"; "D"]) ] _ _ _ _ _))).
  - reflexivity.
  - reflexivity.
  - constructor; [vm_compute; reflexivity | constructor].
  - left. reflexivity.
  - discriminate.
Defined.

Lemma open_file_None directory json_file :
  open_file directory json_file = None ↔ json_file ∉ directory.*1.
Proof.
  induction directory as [|[n shard] rest IH]; simpl.
  - split; [intros _; apply not_elem_of_nil | done].
  - rewrite not_elem_of_cons, <- IH.
    destruct (String.eqb_spec n json_file) as [->|Hne]; [|naive_solver].
    split; [done | by intros []].
Qed.

(** X5. A file name that the directory does not list makes [open] fail
    with [FileNotFoundError] before anything is read; the [try] statement
    does not catch it, so the locals stay as they are, the run ends there
    and the function returns no list. *)
Theorem unlisted_file_aborts_the_run directory st earlier json_file rest :
  run_exit directory earlier = None →
  json_file ∉ directory.*1 →
  try_file directory st json_file = (st, Some FileNotFoundError)
  ∧ for_json_file directory st (json_file :: rest) = (st, Some FileNotFoundError)
  ∧ count_dau_returning_new_users_across_files
      (earlier ++ json_file :: rest) directory = Raise FileNotFoundError.
Proof.
  intros Hearlier Hunlisted. apply open_file_None in Hunlisted.
  pose proof (λ st0, try_file_missing directory st0 json_file Hunlisted) as Htry.
  split; [apply Htry|]. split.
  - simpl. by rewrite Htry.
  - unfold count_dau_returning_new_users_across_files.
    rewrite (for_json_file_app _ _ _ _ Hearlier). simpl. by rewrite Htry.
Qed.

Lemma unlisted_file_aborts_the_run_third_file :
  count_dau_returning_new_users_across_files
    (two_files ++ "trades_2024_3.json" :: []) (two_shards "X" "Y" "Z") =
  Raise FileNotFoundError.
Proof.
  refine (proj2 (proj2 (unlisted_file_aborts_the_run
    (two_shards "X" "Y" "Z") initial two_files "trades_2024_3.json" [] _ _))).
  - reflexivity.
  - apply open_file_None. reflexivity.
Defined.

(** * Further properties of the listing of the shards *)

Lemma filter_insert_keyed (P : Z * Z * string → bool) x l :
  (∀ y, P x = true → P y = true → tuple_lt y.1 x.1 = false) →
  List.filter P (insert_keyed x l) = List.filter P (x :: l).
Proof.
  intros Hsame. induction l as [|y l IH]; [done|]. simpl insert_keyed.
  destruct (tuple_lt y.1 x.1) eqn:Hlt; [|done].
  simpl in *. rewrite IH.
  destruct (P x) eqn:Hx, (P y) eqn:Hy; try done.
  specialize (Hsame y eq_refl Hy). congruence.
Qed.

Lemma filter_sort_keyed key l :
  List.filter (λ p, bool_decide (p.1 = key)) (sort_keyed l) =
  List.filter (λ p, bool_decide (p.1 = key)) l.
Proof.
  induction l as [|x l IH]; [done|]. simpl sort_keyed.
  rewrite filter_insert_keyed.
  - simpl. by rewrite IH.
  - intros y Hx%bool_decide_eq_true Hy%bool_decide_eq_true.
    rewrite Hx, Hy. apply not_true_iff_false. rewrite tuple_lt_spec. lia.
Qed.

Lemma filter_keyed_names key (l : list (Z * Z * string)) :
  Forall (λ p, sort_key p.2 = Ok p.1) l →
  List.filter (λ f, bool_decide (sort_key f = Ok key)) l.*2 =
  (List.filter (λ p, bool_decide (p.1 = key)) l).*2.
Proof.
  induction 1 as [|[k f] l Hk _ IH]; [done|]. csimpl in *. rewrite Hk, IH.
  destruct (decide (k = key)) as [->|Hne].
  - by rewrite !bool_decide_eq_true_2.
  - rewrite !bool_decide_eq_false_2; [done | done | congruence].
Qed.

Lemma list_json_files_decorated listing json_files :
  list_json_files listing = Ok json_files →
  ∃ kl, decorate (List.filter (λ f, endswith f ".json") listing) = Ok kl
        ∧ json_files = (sort_keyed kl).*2.
Proof.
  unfold list_json_files, sort_by_key.
  destruct (decorate _) as [kl|e]; simpl; [|done]. intros [= <-]. by exists kl.
Qed.

(** X6. The sort of the shards is stable: the listed files that have one and
    the same key come out in the order in which the directory listing gave
    them. *)
Theorem shards_with_equal_keys_keep_their_order listing json_files key :
  list_json_files listing = Ok json_files →
  List.filter (λ f, bool_decide (sort_key f = Ok key)) json_files =
  List.filter (λ f, bool_decide (sort_key f = Ok key))
    (List.filter (λ f, endswith f ".json") listing).
Proof.
  intros (kl & Hkl & ->)%list_json_files_decorated.
  destruct (decorate_ok _ _ Hkl) as [<- Hall].
  rewrite !filter_keyed_names; [|done | by rewrite sort_keyed_perm].
  by rewrite filter_sort_keyed.
Qed.

Lemma shards_with_equal_keys_keep_their_order_two_markets :
  List.filter (λ f, bool_decide (sort_key f = Ok (2024, 2)))
    ["t_2023_12.json"; "b_2024_2.json"; "a_2024_2.json"; "t_2024_10.json"] =
  List.filter (λ f, bool_decide (sort_key f = Ok (2024, 2)))
    (List.filter (λ f, endswith f ".json")
       ["t_2024_10.json"; "b_2024_2.json"; "t_2023_12.json"; "a_2024_2.json"]).
Proof.
  apply (shards_with_equal_keys_keep_their_order
    ["t_2024_10.json"; "b_2024_2.json"; "t_2023_12.json"; "a_2024_2.json"]).
  vm_compute. reflexivity.
Defined.

Lemma filter_all {A} (P : A → bool) (l : list A) :
  Forall (λ x, P x = true) l → List.filter P l = l.
Proof. induction 1 as [|x l Hx _ IH]; simpl; [done|]. by rewrite Hx, IH. Qed.

Lemma decorate_names (l : list (Z * Z * string)) :
  Forall (λ p, sort_key p.2 = Ok p.1) l → decorate l.*2 = Ok l.
Proof.
  induction 1 as [|[k f] l Hk _ IH]; [done|]. csimpl in *. by rewrite Hk, IH.
Qed.

Lemma insert_keyed_front x l :
  Forall (keyed_le x) l → insert_keyed x l = x :: l.
Proof.
  destruct 1 as [|y l Hxy _]; [done|]. simpl.
  unfold keyed_le, tuple_le in Hxy. apply negb_true_iff in Hxy. by rewrite Hxy.
Qed.

Lemma sort_keyed_of_sorted l : StronglySorted keyed_le l → sort_keyed l = l.
Proof.
  induction 1 as [|x l _ IH Hall]; [done|]. simpl. rewrite IH.
  by apply insert_keyed_front.
Qed.

(** X7. The listing is idempotent: given the list it returned as a
    directory listing, it returns the same list, so a directory whose names
    are already filtered and in order is left as it is. *)
Theorem listing_an_ordered_listing_changes_nothing listing json_files :
  list_json_files listing = Ok json_files →
  list_json_files json_files = Ok json_files.
Proof.
  intros Hlist.
  pose proof Hlist as (kl & Hkl & ->)%list_json_files_decorated.
  destruct (decorate_ok _ _ Hkl) as [Hfiles Hall].
  assert (Forall (λ f, endswith f ".json" = true) (sort_keyed kl).*2) as Hjson.
  { rewrite sort_keyed_perm, Hfiles. apply Forall_forall. intros f Hf.
    apply list_elem_of_In, (filter_In (λ f, endswith f ".json")) in Hf.
    by destruct Hf. }
  unfold list_json_files, sort_by_key.
  rewrite (filter_all _ _ Hjson), decorate_names by (by rewrite sort_keyed_perm).
  simpl. by rewrite (sort_keyed_of_sorted _ (sort_keyed_sorted kl)).
Qed.

Lemma listing_an_ordered_listing_changes_nothing_twice :
  list_json_files
    ["trades_2023_12.json"; "trades_2024_2.json"; "trades_2024_10.json"] =
  Ok ["trades_2023_12.json"; "trades_2024_2.json"; "trades_2024_10.json"].
Proof.
  apply (listing_an_ordered_listing_changes_nothing
    ["trades_2024_10.json"; "notes.txt"; "trades_2024_2.json";
     "trades_2023_12.json"]).
  vm_compute. reflexivity.
Defined.

Lemma split_nonempty sep s : split sep s ≠ [].
Proof.
  destruct s as [|c s]; simpl; [done|].
  destruct (Ascii.eqb c sep); [done|]. by destruct (split sep s).
Qed.

Lemma split_append sep a b :
  split sep (a +:+ String sep b) = split sep a ++ split sep b.
Proof.
  induction a as [|c a IH]; simpl.
  - by rewrite Ascii.eqb_refl.
  - destruct (Ascii.eqb c sep); [by rewrite IH|]. rewrite IH.
    pose proof (split_nonempty sep a). by destruct (split sep a).
Qed.

Lemma split_without sep s :
  sep ∉ list_ascii_of_string s → split sep s = [s].
Proof.
  induction s as [|c s IH]; simpl; [done|].
  rewrite not_elem_of_cons. intros [Hne Hs].
  destruct (Ascii.eqb_spec c sep) as [->|_]; [done|]. by rewrite IH.
Qed.

Lemma index_last_but_one {A} (l : list A) a b : index (l ++ [a; b]) (-2) = Ok a.
Proof.
  unfold index. rewrite length_app. simpl length.
  replace (-2 <? 0) with true by done.
  replace (-2 + Z.of_nat (length l + 2)) with (Z.of_nat (length l)) by lia.
  destruct (Z.ltb_spec (Z.of_nat (length l)) 0); [lia|].
  destruct (Z.leb_spec (Z.of_nat (length l + 2)) (Z.of_nat (length l))); [lia|].
  simpl. rewrite Nat2Z.id, lookup_app_r, Nat.sub_diag; done.
Qed.

Lemma index_last {A} (l : list A) b : index (l ++ [b]) (-1) = Ok b.
Proof.
  unfold index. rewrite length_app. simpl length.
  replace (-1 <? 0) with true by done.
  replace (-1 + Z.of_nat (length l + 1)) with (Z.of_nat (length l)) by lia.
  destruct (Z.ltb_spec (Z.of_nat (length l)) 0); [lia|].
  destruct (Z.leb_spec (Z.of_nat (length l + 1)) (Z.of_nat (length l))); [lia|].
  simpl. rewrite Nat2Z.id, lookup_app_r, Nat.sub_diag; done.
Qed.

Lemma append_cons c a b : String c a +:+ b = String c (a +:+ b).
Proof. reflexivity. Qed.

Lemma append_empty b : "" +:+ b = b.
Proof. reflexivity. Qed.

Lemma substring_all b : substring 0 (String.length b) b = b.
Proof. induction b as [|c b IH]; simpl; [done | by rewrite IH]. Qed.

Lemma substring_suffix a b :
  substring (String.length a) (String.length b) (a +:+ b) = b.
Proof.
  induction a as [|c a IH]; [apply substring_all|]. by rewrite append_cons.
Qed.

Lemma length_append a b :
  String.length (a +:+ b) = (String.length a + String.length b)%nat.
Proof.
  induction a as [|c a IH]; [done|]. rewrite append_cons. simpl. by rewrite IH.
Qed.

Lemma endswith_append a b : endswith (a +:+ b) b = true.
Proof.
  unfold endswith. cbv zeta. rewrite length_append.
  replace (String.length a + String.length b - String.length b)%nat
    with (String.length a) by lia.
  rewrite substring_suffix, String.eqb_refl, andb_true_r.
  apply Nat.leb_le. lia.
Qed.

Lemma append_assoc a b c : (a +:+ b) +:+ c = a +:+ (b +:+ c).
Proof.
  induction a as [|x a IH]; [done|]. by rewrite !append_cons, IH.
Qed.

Lemma list_ascii_of_append a b :
  list_ascii_of_string (a +:+ b) = list_ascii_of_string a ++ list_ascii_of_string b.
Proof.
  induction a as [|c a IH]; [done|]. rewrite append_cons. simpl. by rewrite IH.
Qed.

(** X8. A file named after the convention, a stem, a year and a month
    separated by underscores and followed by [.json], is listed as a shard
    and has the key (year, month), read as integers; the stem may itself
    hold underscores and dots.  For the year and the month, any string [int]
    accepts will do, as long as it holds no underscore and, for the month,
    no dot. *)
Theorem conventional_name_has_its_key stem year_s month_s year month :
  "_"%char ∉ list_ascii_of_string year_s →
  "_"%char ∉ list_ascii_of_string month_s →
  "."%char ∉ list_ascii_of_string month_s →
  py_int year_s = Ok year →
  py_int month_s = Ok month →
  endswith (stem +:+ "_" +:+ year_s +:+ "_" +:+ month_s +:+ ".json") ".json"
    = true
  ∧ sort_key (stem +:+ "_" +:+ year_s +:+ "_" +:+ month_s +:+ ".json")
    = Ok (year, month).
Proof.
  intros Hyear Hmonth Hdot Hy Hm. split.
  - replace (stem +:+ "_" +:+ year_s +:+ "_" +:+ month_s +:+ ".json")
      with ((stem +:+ "_" +:+ year_s +:+ "_" +:+ month_s) +:+ ".json").
    + apply endswith_append.
    + by rewrite !append_assoc.
  - assert (split "_" (stem +:+ "_" +:+ year_s +:+ "_" +:+ month_s +:+ ".json")
            = split "_" stem ++ [year_s; month_s +:+ ".json"]) as Hsplit.
    { change ("_" +:+ year_s +:+ "_" +:+ month_s +:+ ".json")
        with (String "_" (year_s +:+ String "_" (month_s +:+ ".json"))).
      rewrite !split_append. rewrite (split_without _ year_s Hyear).
      rewrite (split_without _ (month_s +:+ ".json")); [done|].
      rewrite list_ascii_of_append, not_elem_of_app. split; [done|].
      simpl. rewrite !not_elem_of_cons. repeat split; try done.
      apply not_elem_of_nil. }
    assert (split "." (month_s +:+ ".json") = [month_s; "json"]) as Hdots.
    { change ".json" with (String "." "json"). rewrite split_append.
      by rewrite (split_without _ month_s Hdot). }
    assert (index (split "_" stem ++ [year_s; month_s +:+ ".json"]) (-1)
            = Ok (month_s +:+ ".json")) as Hlast.
    { rewrite (app_assoc _ [year_s] [month_s +:+ ".json"]). apply index_last. }
    unfold sort_key. rewrite Hsplit, index_last_but_one, Hlast. simpl.
    rewrite Hy. simpl. rewrite Hdots. simpl. by rewrite Hm.
Qed.

Lemma conventional_name_has_its_key_spot_trades :
  sort_key "exchangeV2.spot_trades_2024_10.json" = Ok (2024, 10).
Proof.
  refine (proj2 (conventional_name_has_its_key "exchangeV2.spot_trades"
                   "2024" "10" 2024 10 _ _ _ _ _));
    try reflexivity;
    apply (proj1 (bool_decide_eq_false _)); reflexivity.
Defined.

(** The integers of a key are read as [int] reads them: digits of another
    script count, a control character is no white space. *)
Example sort_key_arabic_indic_digits :
  sort_key "t_٢٠٢٤_1.json" = Ok (2024, 1).
Proof. vm_compute. reflexivity. Qed.

Example sort_key_no_break_space :
  sort_key ("t_2024_" +:+ String "194" (String "160" "3.json")) = Ok (2024, 3).
Proof. vm_compute. reflexivity. Qed.

Example sort_key_file_separator :
  sort_key ("t_2024_" +:+ String "028" "3.json") = Raise ValueError.
Proof. vm_compute. reflexivity. Qed.

Lemma sort_key_raises x e :
  sort_key x = Raise e → e = IndexError ∨ e = ValueError.
Proof.
  assert (∀ {A} (l : list A) i e', index l i = Raise e' → e' = IndexError)
    as Hindex.
  { intros A l i e'. unfold index.
    destruct (_ || _); [congruence|]. destruct (l !! _); congruence. }
  assert (∀ s e', py_int s = Raise e' → e' = ValueError) as Hint.
  { intros s e'. unfold py_int. cbv zeta.
    match goal with |- match ?p with _ => _ end = _ → _ => destruct p end;
      congruence. }
  unfold sort_key.
  destruct (index (split "_" x) (-2)) as [a|e1] eqn:H1; simpl;
    [|intros [= <-]; left; eauto].
  destruct (py_int a) as [year|e2] eqn:H2; simpl; [|intros [= <-]; right; eauto].
  destruct (index (split "_" x) (-1)) as [b|e3] eqn:H3; simpl;
    [|intros [= <-]; left; eauto].
  destruct (index (split "." b) 0) as [c|e4] eqn:H4; simpl;
    [|intros [= <-]; left; eauto].
  destruct (py_int c) as [month|e5] eqn:H5; simpl; [done|].
  intros [= <-]; right; eauto.
Qed.

Lemma sort_key_without_underscore x :
  "_"%char ∉ list_ascii_of_string x → sort_key x = Raise IndexError.
Proof. intros Hx. unfold sort_key. by rewrite (split_without _ _ Hx). Qed.

Lemma decorate_raises l x e :
  x ∈ l → sort_key x = Raise e →
  ∃ e', decorate l = Raise e' ∧ (e' = IndexError ∨ e' = ValueError).
Proof.
  intros Hin Hx. induction l as [|y l IH]; [by apply elem_of_nil in Hin|].
  simpl. destruct (sort_key y) as [k|e1] eqn:Hy; simpl.
  - apply elem_of_cons in Hin as [->|Hin]; [congruence|].
    destruct (IH Hin) as (e' & -> & He'). by exists e'.
  - exists e1. split; [done|]. by apply (sort_key_raises y).
Qed.

(** X9. A JSON file without underscore in its name has no key: the
    lambda raises [IndexError].  One such file in the directory of a
    category makes [main] end with [IndexError] or [ValueError] before any
    shard is read: the file system is left as it was, no document is
    written. *)
Theorem unconventional_name_aborts_main
    market_type output_filename w directory f :
  inputs w !! market_type = Some directory →
  f ∈ directory.*1 →
  endswith f ".json" = true →
  "_"%char ∉ list_ascii_of_string f →
  sort_key f = Raise IndexError
  ∧ ∃ e, (e = IndexError ∨ e = ValueError)
      ∧ list_json_files directory.*1 = Raise e
      ∧ main market_type output_filename w = (w, Some e).
Proof.
  intros Hdir Hf Hjson Hname.
  pose proof (sort_key_without_underscore f Hname) as Hkey. split; [done|].
  assert (f ∈ List.filter (λ f, endswith f ".json") directory.*1) as Hin.
  { apply list_elem_of_In, (filter_In (λ f, endswith f ".json")).
    split; [by apply list_elem_of_In | done]. }
  destruct (decorate_raises _ _ _ Hin Hkey) as (e & Hdec & He).
  exists e. split; [done|].
  assert (list_json_files directory.*1 = Raise e) as Hlist.
  { unfold list_json_files, sort_by_key. by rewrite Hdec. }
  split; [done|]. unfold main. by rewrite Hdir, Hlist.
Qed.

Lemma unconventional_name_aborts_main_summary :
  ∃ e, (e = IndexError ∨ e = ValueError)
    ∧ main "spot" "spot_dau_returning_new_users_data.json" spot_with_summary =
      (spot_with_summary, Some e).
Proof.
  destruct (unconventional_name_aborts_main "spot"
    "spot_dau_returning_new_users_data.json" spot_with_summary
    [ ("trades_2024_1.json", [Yield (day_object "2024-01-15" ["X"; "Y"])]);
      ("summary.json", []) ] "summary.json") as (_ & e & He & _ & Hmain).
  - reflexivity.
  - apply (bool_decide_unpack _). reflexivity.
  - reflexivity.
  - apply (proj1 (bool_decide_eq_false _)). reflexivity.
  - exists e. split; [exact He | exact Hmain].
Defined.

(** * Further properties of [main] and of the script *)

Lemma filter_none {A} (P : A → bool) (l : list A) :
  Forall (λ x, P x = false) l → List.filter P l = [].
Proof. induction 1 as [|x l Hx _ IH]; simpl; [done|]. by rewrite Hx. Qed.

(** X10. A category whose directory exists and holds no file ending in
    [.json] is no error: [main] reads no file and writes the empty list as
    the document of the category. *)
Theorem category_without_shards_writes_the_empty_list
    market_type output_filename w directory docs :
  inputs w !! market_type = Some directory →
  Forall (λ f, endswith f ".json" = false) directory.*1 →
  outputs w = Some docs →
  main market_type output_filename w =
  ({| inputs := inputs w;
      outputs := Some (<[output_filename := Complete []]> docs) |},
   None).
Proof.
  intros Hdir Hnone Hdocs. unfold main, list_json_files.
  rewrite Hdir, (filter_none _ _ Hnone). simpl. by rewrite Hdocs.
Qed.

Lemma category_without_shards_writes_the_empty_list_notes :
  main "spot" "spot_dau_returning_new_users_data.json" spot_without_shards =
  ({| inputs := inputs spot_without_shards;
      outputs := Some (<["spot_dau_returning_new_users_data.json" :=
                           Complete []]>
                         {[ "earlier.json" := Complete [] ]}) |}, None).
Proof.
  apply (category_without_shards_writes_the_empty_list "spot" _ _
           [ ("notes.txt", [Throw JSONError]) ]).
  - reflexivity.
  - constructor; [reflexivity | constructor].
  - reflexivity.
Defined.

(** X11. [main] touches its own document only.  It never changes the
    input directories nor a document under another name.  When it returns,
    the document under [output_filename] is the complete list the function
    returned for the shards of the category in key order.  When it ends with
    an exception, the file system is as it was, with one exception: the
    [TypeError] that [json.dump] raises on a date that is a [Decimal]
    leaves the document truncated, holding the entries before the first
    such date. *)
Theorem main_touches_only_its_document market_type output_filename w w' r :
  main market_type output_filename w = (w', r) →
  inputs w' = inputs w
  ∧ (∀ other, other ≠ output_filename →
       outputs w' ≫= (λ docs, docs !! other) =
       outputs w ≫= (λ docs, docs !! other))
  ∧ match r with
    | None =>
        ∃ directory json_files data,
          inputs w !! market_type = Some directory
          ∧ list_json_files directory.*1 = Ok json_files
          ∧ count_dau_returning_new_users_across_files json_files directory
            = Ok data
          ∧ Forall (λ m, serializable (date m) = true) data
          ∧ outputs w' ≫= (λ docs, docs !! output_filename)
            = Some (Complete data)
    | Some e =>
        w' = w
        ∨ (e = TypeError
           ∧ ∃ directory json_files written m rest,
               inputs w !! market_type = Some directory
               ∧ list_json_files directory.*1 = Ok json_files
               ∧ count_dau_returning_new_users_across_files
                   json_files directory = Ok (written ++ m :: rest)
               ∧ Forall (λ m, serializable (date m) = true) written
               ∧ serializable (date m) = false
               ∧ outputs w' ≫= (λ docs, docs !! output_filename)
                 = Some (Truncated written))
    end.
Proof.
  destruct (main_outcome market_type output_filename w)
    as [[Hsame Hfail] | (directory & json_files & data & docs & Hdir & Hlist
                         & Hcount & Hdocs & Hmain)].
  - rewrite Hsame. intros [= <- <-]. split; [done|]. split; [done|].
    destruct (main market_type output_filename w).2; [by left | done].
  - rewrite Hmain.
    destruct (json_dump_outcome data)
      as [[-> Hall] | (written & m & rest & -> & -> & Hall & Hm)];
      intros [= <- <-]; simpl; (split; [done|]); rewrite Hdocs; simpl;
      (split; [by intros other Hother; rewrite lookup_insert_ne|]).
    + exists directory, json_files, data. by rewrite lookup_insert_eq.
    + right. split; [done|]. exists directory, json_files, written, m, rest.
      by rewrite lookup_insert_eq.
Qed.

Lemma main_touches_only_its_document_decimal_date :
  main "spot" "spot_dau_returning_new_users_data.json" spot_with_decimal_date =
    ({| inputs := inputs spot_with_decimal_date;
        outputs := Some
          (<["spot_dau_returning_new_users_data.json" :=
               Truncated
                 [ {| date := JStr "2024-01-15";
                      dau := 2; returningAddresses := 0; newUsers := 2 |} ]]>
             {[ "earlier.json" := Complete [] ]}) |},
     Some TypeError)
  ∧ outputs (main "spot" "spot_dau_returning_new_users_data.json"
               spot_with_decimal_date).1
      ≫= (λ docs, docs !! "earlier.json") =
    outputs spot_with_decimal_date ≫= (λ docs, docs !! "earlier.json").
Proof.
  assert (main "spot" "spot_dau_returning_new_users_data.json"
            spot_with_decimal_date =
          ({| inputs := inputs spot_with_decimal_date;
              outputs := Some
                (<["spot_dau_returning_new_users_data.json" :=
                     Truncated
                       [ {| date := JStr "2024-01-15";
                            dau := 2; returningAddresses := 0;
                            newUsers := 2 |} ]]>
                   {[ "earlier.json" := Complete [] ]}) |},
           Some TypeError)) as Hmain.
  { vm_compute. reflexivity. }
  split; [exact Hmain|]. rewrite Hmain.
  refine (proj1 (proj2 (main_touches_only_its_document "spot"
    "spot_dau_returning_new_users_data.json" spot_with_decimal_date _ _ Hmain))
    "earlier.json" _).
  discriminate.
Defined.

(** X12. The two categories are aggregated separately.  When the script
    returns, both input directories exist, and the [outputs] directory holds
    for each category the list the function returns for the shards of that
    category alone, each count starting from an empty seen set: the document
    of the derivative category is the one [main] writes for it when the
    spot category has not been processed. *)
Theorem categories_are_aggregated_separately w w' :
  run_script w = (w', None) →
  ∃ docs spot derivative spot_files derivative_files spot_data derivative_data,
    inputs w !! "spot" = Some spot
    ∧ inputs w !! "derivative" = Some derivative
    ∧ outputs w = Some docs
    ∧ list_json_files spot.*1 = Ok spot_files
    ∧ count_dau_returning_new_users_across_files spot_files spot = Ok spot_data
    ∧ list_json_files derivative.*1 = Ok derivative_files
    ∧ count_dau_returning_new_users_across_files derivative_files derivative
      = Ok derivative_data
    ∧ w' = {| inputs := inputs w;
              outputs := Some
                (<["derivative_dau_returning_new_users_data.json" :=
                     Complete derivative_data]>
                   (<["spot_dau_returning_new_users_data.json" :=
                        Complete spot_data]>
                      docs)) |}
    ∧ main "derivative" "derivative_dau_returning_new_users_data.json" w =
      ({| inputs := inputs w;
          outputs := Some
            (<["derivative_dau_returning_new_users_data.json" :=
                 Complete derivative_data]> docs) |}, None).
Proof.
  unfold run_script, main.
  destruct (inputs w !! "spot") as [spot|] eqn:Hspot; [|done].
  destruct (list_json_files spot.*1) as [spot_files|] eqn:Hsf; [|done].
  destruct (count_dau_returning_new_users_across_files spot_files spot)
    as [spot_data|] eqn:Hsd; [|done].
  destruct (outputs w) as [docs|] eqn:Hdocs; [|done].
  destruct (json_dump spot_data) as [spot_written [e|]]; [done|]. simpl.
  destruct (inputs w !! "derivative") as [derivative|] eqn:Hder; [|done].
  destruct (list_json_files derivative.*1) as [derivative_files|] eqn:Hdf;
    [|done].
  destruct (count_dau_returning_new_users_across_files derivative_files
              derivative) as [derivative_data|] eqn:Hdd; [|done].
  destruct (json_dump derivative_data) as [derivative_written [e|]]; [done|].
  intros [= <-].
  by exists docs, spot, derivative, spot_files, derivative_files, spot_data,
    derivative_data.
Qed.

Lemma categories_are_aggregated_separately_both :
  ∃ spot_data derivative_data,
    (run_script both_categories).1 =
    {| inputs := inputs both_categories;
       outputs := Some
         (<["derivative_dau_returning_new_users_data.json" :=
              Complete derivative_data]>
            (<["spot_dau_returning_new_users_data.json" :=
                 Complete spot_data]> ∅)) |}
    ∧ main "derivative" "derivative_dau_returning_new_users_data.json"
        both_categories =
      ({| inputs := inputs both_categories;
          outputs := Some
            (<["derivative_dau_returning_new_users_data.json" :=
                 Complete derivative_data]> ∅) |}, None).
Proof.
  destruct (categories_are_aggregated_separately both_categories
              (run_script both_categories).1)
    as (docs & spot & derivative & spot_files & derivative_files & spot_data
        & derivative_data & _ & _ & Hdocs & _ & _ & _ & _ & Hw & Hmain).
  - vm_compute. reflexivity.
  - injection Hdocs as <-. exists spot_data, derivative_data.
    split; [exact Hw | exact Hmain].
Defined.

(** * Properties of the fetcher *)

Section fetcher.
Import JSONFetcher.

Lemma fetch_json_without_url get self :
  url self = None ∨ url self = Some "" → fetch_json get self = Raises ValueError.
Proof. unfold fetch_json. by intros [-> | ->]. Qed.

Lemma fetch_json_with_url get self u :
  url self = Some u → u ≠ "" →
  fetch_json get self =
  match get u (headers self) with
  | None => Returns VNull
  | Some r =>
      if (400 <=? status_code r) && (status_code r <? 600) then Returns VNull
      else match json_body r with
           | Some data => Returns data
           | None => Returns VNull
           end
  end.
Proof.
  intros Hu Hne. unfold fetch_json. rewrite Hu.
  by destruct (String.eqb_spec u "").
Qed.

Lemma fetch_json_raises get self e :
  fetch_json get self = Raises e → e = ValueError.
Proof.
  unfold fetch_json. destruct (url self) as [u|]; [|by intros [= <-]].
  destruct (String.eqb_spec u "") as [->|_]; [by intros [= <-]|].
  destruct (get u (headers self)) as [r|]; [|done].
  destruct (_ && _); [done|]. by destruct (json_body r).
Qed.

Lemma status_is_error r :
  (400 <=? status_code r) && (status_code r <? 600) = true
  ↔ 400 ≤ status_code r < 600.
Proof. rewrite andb_true_iff, Z.leb_le, Z.ltb_lt. done. Qed.

(** X13. [fetch_json] raises only [ValueError], and exactly when no URL is
    set or the URL is the empty string.  With a URL, every failure of the
    request is swallowed: it returns [None] when the request raises, when
    the status is from 400 to 599 and when the body does not decode, and a
    value other than [None] only if the response has another status and its
    body decodes to that value. *)
Theorem fetch_json_raises_only_without_url get self :
  (∀ e, fetch_json get self = Raises e
        ↔ e = ValueError ∧ (url self = None ∨ url self = Some ""))
  ∧ (∀ data, fetch_json get self = Returns data → data ≠ VNull →
       ∃ u r, url self = Some u ∧ u ≠ ""
         ∧ get u (headers self) = Some r
         ∧ ¬ (400 ≤ status_code r < 600)
         ∧ json_body r = Some data)
  ∧ (∀ u, url self = Some u → u ≠ "" →
       get u (headers self) = None
       ∨ (∃ r, get u (headers self) = Some r
            ∧ (400 ≤ status_code r < 600 ∨ json_body r = None)) →
       fetch_json get self = Returns VNull).
Proof.
  split; [|split].
  - intros e. split.
    + unfold fetch_json. destruct (url self) as [u|]; [|intros [= <-]; eauto].
      destruct (String.eqb_spec u "") as [->|_]; [intros [= <-]; eauto|].
      destruct (get u (headers self)) as [r|]; [|done].
      destruct (_ && _); [done|]. by destruct (json_body r).
    + intros [-> Hurl]. by apply fetch_json_without_url.
  - intros data Hfetch Hdata. unfold fetch_json in Hfetch.
    destruct (url self) as [u|]; [|done].
    destruct (String.eqb_spec u "") as [|Hne]; [done|].
    destruct (get u (headers self)) as [r|] eqn:Hget; [|congruence].
    destruct (_ && _) eqn:Hstatus; [congruence|].
    destruct (json_body r) as [data'|] eqn:Hbody; [|congruence].
    injection Hfetch as ->. exists u, r. repeat split; try done.
    rewrite <- status_is_error. congruence.
  - intros u Hu Hne Hfail. rewrite (fetch_json_with_url _ _ _ Hu Hne).
    destruct Hfail as [-> | (r & -> & [Hstatus | Hbody])]; [done | |].
    + apply status_is_error in Hstatus. by rewrite Hstatus.
    + rewrite Hbody. by destruct (_ && _).
Qed.

Lemma truthy_false data :
  truthy data = false
  ↔ data ∈ [VNull; VBool false; VNum 0; VStr ""; VList []; VDict []].
Proof.
  rewrite !elem_of_cons, elem_of_nil. split.
  - destruct data as [|[]|n|s|[]|[]]; simpl; try done; eauto 10.
    + rewrite negb_false_iff, Z.eqb_eq. intros ->. eauto 10.
    + rewrite negb_false_iff, String.eqb_eq. intros ->. eauto 10.
  - intros [->|[->|[->|[->|[->|[->|[]]]]]]]; done.
Qed.

(** X14. What a successful request leaves on disk depends on the truth
    value of the data and on the file name.  [save_json_to_file] creates
    the directory.  When the data is not truthy, which is the case of
    [None], [False], 0, the empty string, the empty list and the empty object
    and of no other value, it writes no file and raises nothing.  When the
    data is truthy and the file can be opened, it writes the data under the
    file name and raises nothing.  When the data is truthy and the file
    cannot be opened, for a file name in a sub-directory that is missing for
    instance, the exception of [open] leaves the method and no file is
    written. *)
Theorem save_json_to_file_saves_truthy_data
    get self filename save_directory w u r data :
  url self = Some u → u ≠ "" →
  get u (headers self) = Some r →
  ¬ (400 ≤ status_code r < 600) →
  json_body r = Some data →
  let file_path := (directory_or_default save_directory, filename) in
  let created := makedirs (directory_or_default save_directory) w in
  save_json_to_file get self filename save_directory w =
    (if truthy data then
       if bool_decide (file_path ∈ refused w) then (created, Some OSError)
       else (write file_path (JsonText data) created, None)
     else (created, None))
  ∧ (truthy data = false
     ↔ data ∈ [VNull; VBool false; VNum 0; VStr ""; VList []; VDict []]).
Proof.
  intros Hu Hne Hget Hstatus Hbody file_path created.
  split; [|apply truthy_false].
  unfold save_json_to_file. rewrite (fetch_json_with_url _ _ _ Hu Hne), Hget.
  rewrite <- status_is_error in Hstatus. apply not_true_is_false in Hstatus.
  rewrite Hstatus, Hbody. done.
Qed.

Lemma save_json_to_file_saves_truthy_data_on_three_calls :
  save_json_to_file (answers 200 (VList [])) markets_fetcher "markets.json"
    None no_files =
  (makedirs lists_directory no_files, None)
  ∧ save_json_to_file (answers 200 three_rows) markets_fetcher "markets.json"
      None no_files =
    (write (lists_directory, "markets.json") (JsonText three_rows)
       (makedirs lists_directory no_files), None)
  ∧ save_json_to_file (answers 200 three_rows) markets_fetcher
      "sub/markets.json" None no_sub_directory =
    (makedirs lists_directory no_sub_directory, Some OSError).
Proof.
  split; [|split].
  - refine (proj1 (save_json_to_file_saves_truthy_data (answers 200 (VList []))
      markets_fetcher "markets.json" None no_files "https://example.org/markets"
      {| status_code := 200; json_body := Some (VList []) |} (VList [])
      _ _ _ _ _)).
    + reflexivity.
    + discriminate.
    + reflexivity.
    + simpl. lia.
    + reflexivity.
  - refine (proj1 (save_json_to_file_saves_truthy_data (answers 200 three_rows)
      markets_fetcher "markets.json" None no_files "https://example.org/markets"
      {| status_code := 200; json_body := Some three_rows |} three_rows
      _ _ _ _ _)).
    + reflexivity.
    + discriminate.
    + reflexivity.
    + simpl. lia.
    + reflexivity.
  - refine (proj1 (save_json_to_file_saves_truthy_data (answers 200 three_rows)
      markets_fetcher "sub/markets.json" None no_sub_directory
      "https://example.org/markets"
      {| status_code := 200; json_body := Some three_rows |} three_rows
      _ _ _ _ _)).
    + reflexivity.
    + discriminate.
    + reflexivity.
    + simpl. lia.
    + reflexivity.
Defined.

(** X15. Without a URL both save methods raise the [ValueError] of
    [fetch_json], whatever the server would answer, and they raise it after
    the directory has been created: the directory is there afterwards, and
    no file has been written. *)
Theorem saving_without_url_creates_the_directory
    get self filename save_directory format w :
  url self = None ∨ url self = Some "" →
  save_json_to_file get self filename save_directory w =
    (makedirs (directory_or_default save_directory) w, Some ValueError)
  ∧ save_to_format get self filename save_directory format w =
    (makedirs (directory_or_default save_directory) w, Some ValueError)
  ∧ directory_or_default save_directory
    ∈ dirs (save_to_format get self filename save_directory format w).1
  ∧ files (save_to_format get self filename save_directory format w).1 = files w.
Proof.
  intros Hurl. unfold save_json_to_file, save_to_format.
  rewrite (fetch_json_without_url _ _ Hurl). simpl.
  repeat split. set_solver.
Qed.

Lemma saving_without_url_creates_the_directory_unset :
  save_json_to_file (answers 200 three_rows) (__init__ None None)
    "markets.json" (Some "data") no_files =
  (makedirs "data" no_files, Some ValueError).
Proof.
  refine (proj1 (saving_without_url_creates_the_directory
    (answers 200 three_rows) (__init__ None None) "markets.json" (Some "data")
    "json" no_files _)).
  left. reflexivity.
Defined.

(** X16. With the format [json] or [text], [save_to_format] does what
    [save_json_to_file] does: the same file with the same JSON text, or none,
    and the same exception. *)
Theorem save_to_format_json_and_text_save_json
    get self filename save_directory format w :
  format = "json" ∨ format = "text" →
  save_to_format get self filename save_directory format w =
  save_json_to_file get self filename save_directory w.
Proof.
  intros Hformat. unfold save_to_format, save_json_to_file.
  destruct (fetch_json get self) as [data|e]; [|done].
  destruct (truthy data); [|done]. by destruct Hformat as [-> | ->].
Qed.

Lemma save_to_format_json_and_text_save_json_text :
  save_to_format (answers 200 three_rows) markets_fetcher "markets.txt" None
    "text" no_files =
  save_json_to_file (answers 200 three_rows) markets_fetcher "markets.txt" None
    no_files.
Proof.
  apply save_to_format_json_and_text_save_json. right. reflexivity.
Defined.

(** X17. [save_to_format] writes no file and raises nothing, once the
    data is fetched, when the format is none of [json], [text] and [csv],
    and also when the format is [csv] and the data is not a list that
    starts with an object, an object at top level for instance.  The
    directory is created all the same. *)
Theorem save_to_format_writes_nothing
    get self filename save_directory format w data :
  fetch_json get self = Returns data →
  (format ≠ "json" ∧ format ≠ "text" ∧ format ≠ "csv")
  ∨ (format = "csv" ∧ ∀ first rest, data ≠ VList (VDict first :: rest)) →
  save_to_format get self filename save_directory format w =
  (makedirs (directory_or_default save_directory) w, None).
Proof.
  intros Hfetch Hcase. unfold save_to_format. rewrite Hfetch.
  destruct (truthy data) eqn:Htruthy; [|done].
  destruct Hcase as [(Hj & Ht & Hc) | [-> Hshape]].
  - apply String.eqb_neq in Hj, Ht, Hc. by rewrite Hj, Ht, Hc.
  - simpl.
    destruct data as [|b|n|s|[|[|b|n|s|items|first] rest]|fields]; try done.
    by destruct (Hshape first rest).
Qed.

Lemma save_to_format_writes_nothing_object :
  save_to_format (answers 200 (VDict [("markets", three_rows)])) markets_fetcher
    "markets.csv" None "csv" no_files =
  (makedirs lists_directory no_files, None).
Proof.
  refine (save_to_format_writes_nothing
    (answers 200 (VDict [("markets", three_rows)])) markets_fetcher
    "markets.csv" None "csv" no_files (VDict [("markets", three_rows)]) _ _).
  - reflexivity.
  - right. split; [reflexivity | discriminate].
Defined.

Lemma get_cell_own fields :
  NoDup fields.*1 → get_cell fields <$> fields.*1 = fields.*2.
Proof.
  induction fields as [|[k v] fields IH]; [done|]. csimpl.
  intros [Hk Hnodup]%NoDup_cons. f_equal.
  - unfold get_cell. simpl. by rewrite String.eqb_refl.
  - rewrite <- (IH Hnodup). apply Forall_fmap_ext_1, Forall_forall.
    intros k' Hk'. unfold get_cell. simpl.
    destruct (String.eqb_spec k k') as [->|_]; done.
Qed.

Lemma _dict_to_list_fits fieldnames rowdict :
  row_fits fieldnames rowdict →
  _dict_to_list fieldnames rowdict = Returns (cells_of fieldnames rowdict).
Proof.
  intros (fields & -> & Hkeys). simpl.
  replace (forallb _ _) with true; [done|]. symmetry.
  apply forallb_forall. intros k Hk. apply bool_decide_eq_true.
  by apply Hkeys, list_elem_of_In.
Qed.

Lemma forallb_false {A} (f : A → bool) (l : list A) :
  forallb f l = false → ∃ x, x ∈ l ∧ f x = false.
Proof.
  induction l as [|x l IH]; simpl; [done|].
  destruct (f x) eqn:Hx; simpl.
  - intros (y & Hy & Hfy)%IH. exists y. split; [by right | done].
  - intros _. exists x. split; [by left | done].
Qed.

Lemma _dict_to_list_raises fieldnames rowdict e :
  _dict_to_list fieldnames rowdict = Raises e →
  (e = AttributeError ∧ ∀ fields, rowdict ≠ VDict fields)
  ∨ (e = ValueError
     ∧ ∃ fields k, rowdict = VDict fields ∧ k ∈ fields.*1 ∧ k ∉ fieldnames).
Proof.
  destruct rowdict as [|b|n|s|items|fields]; simpl;
    try (intros [= <-]; left; split; done).
  destruct (forallb _ _) eqn:Hall; [done|]. intros [= <-]. right. split; [done|].
  apply forallb_false in Hall as (k & Hin & Hk).
  exists fields, k. split; [done|]. split; [done|].
  by apply bool_decide_eq_false in Hk.
Qed.

Lemma writerow_written fieldnames rowdict :
  row_written fieldnames rowdict →
  writerow fieldnames rowdict = Returns (cells_of fieldnames rowdict).
Proof.
  intros [Hfits Hcells]. unfold writerow.
  by rewrite (_dict_to_list_fits _ _ Hfits), Hcells.
Qed.

Lemma unencodable_cell cells :
  forallb encodable_cell cells = false →
  ∃ s, VStr s ∈ cells ∧ encodable s = false.
Proof.
  intros (cell & Hin & Hcell)%forallb_false.
  destruct cell as [|b|n|s|items|fields]; try done. by exists s.
Qed.

Lemma writerow_raises fieldnames rowdict e :
  writerow fieldnames rowdict = Raises e →
  (e = AttributeError ∧ ∀ fields, rowdict ≠ VDict fields)
  ∨ (e = ValueError
     ∧ ∃ fields k, rowdict = VDict fields ∧ k ∈ fields.*1 ∧ k ∉ fieldnames)
  ∨ (e = UnicodeEncodeError
     ∧ row_fits fieldnames rowdict
     ∧ ∃ s, VStr s ∈ cells_of fieldnames rowdict ∧ encodable s = false).
Proof.
  unfold writerow.
  destruct (_dict_to_list fieldnames rowdict) as [cells|e'] eqn:Hrow.
  - destruct (forallb encodable_cell cells) eqn:Hcells; [done|].
    intros [= <-]. right. right. split; [done|].
    destruct rowdict as [|b|n|s|items|fields]; try done. simpl in Hrow.
    destruct (forallb _ fields.*1) eqn:Hkeys; [|done]. injection Hrow as <-.
    split; [|by apply unencodable_cell].
    exists fields. split; [done|]. intros k Hk%list_elem_of_In.
    rewrite forallb_forall in Hkeys. apply Hkeys in Hk.
    by apply bool_decide_eq_true in Hk.
  - intros [= <-].
    destruct (_dict_to_list_raises _ _ _ Hrow) as [?|?]; eauto.
Qed.

Lemma writerows_fits fieldnames good later :
  Forall (row_written fieldnames) good →
  writerows fieldnames (good ++ later) =
  ((cells_of fieldnames <$> good) ++ (writerows fieldnames later).1,
   (writerows fieldnames later).2).
Proof.
  induction 1 as [|row good Hrow _ IH]; csimpl.
  - by destruct (writerows fieldnames later).
  - rewrite (writerow_written _ _ Hrow), IH. done.
Qed.

Lemma first_row_fits first : row_fits first.*1 (VDict first).
Proof. by exists first. Qed.

Lemma first_row_written first :
  NoDup first.*1 → forallb encodable_cell first.*2 = true →
  row_written first.*1 (VDict first).
Proof.
  intros Hnodup Hcells. split; [apply first_row_fits|].
  simpl. by rewrite (get_cell_own _ Hnodup).
Qed.

Lemma save_to_format_csv get self filename save_directory w data :
  fetch_json get self = Returns data → truthy data = true →
  save_to_format get self filename save_directory "csv" w =
  _save_as_csv (directory_or_default save_directory, filename) data
    (makedirs (directory_or_default save_directory) w).
Proof.
  intros Hfetch Htruthy. unfold save_to_format. rewrite Hfetch, Htruthy.
  replace (String.eqb "csv" "json") with false by done.
  replace (String.eqb "csv" "text") with false by done.
  replace (String.eqb "csv" "csv") with true by done. done.
Qed.

(** X18. A list of objects is saved as CSV with a header and one row per
    object.  When the file can be opened, the first element is an object,
    every later element is an object whose keys are among the keys of the
    first, and the keys and the string values have no lone surrogate, so
    that the file takes them, the file holds the keys of the first object as
    header, then the values of the first object in the order of its keys,
    then for each later object the value of each header field, the empty
    string standing for a field the object has not; every row has as many
    cells as the header, and nothing is raised. *)
Theorem csv_has_a_row_per_object get self filename save_directory w first rest :
  fetch_json get self = Returns (VList (VDict first :: rest)) →
  (directory_or_default save_directory, filename) ∉ refused w →
  NoDup first.*1 →
  forallb encodable first.*1 = true →
  forallb encodable_cell first.*2 = true →
  Forall (row_written first.*1) rest →
  save_to_format get self filename save_directory "csv" w =
    (write (directory_or_default save_directory, filename)
       (CsvRows ((VStr <$> first.*1) :: first.*2
                 :: (cells_of first.*1 <$> rest)))
       (makedirs (directory_or_default save_directory) w),
     None)
  ∧ Forall (λ row, length row = length first)
      (first.*2 :: (cells_of first.*1 <$> rest)).
Proof.
  intros Hfetch Hopen Hnodup Hkeys Hcells Hrest. split.
  - rewrite (save_to_format_csv _ _ _ _ _ _ Hfetch eq_refl).
    unfold _save_as_csv.
    rewrite bool_decide_eq_false_2 by done. rewrite Hkeys.
    pose proof (writerows_fits first.*1 (VDict first :: rest) []
                  (Forall_cons_2 _ _ _ (first_row_written _ Hnodup Hcells) Hrest))
      as Hrows.
    rewrite app_nil_r in Hrows. rewrite Hrows.
    simpl. by rewrite app_nil_r, (get_cell_own _ Hnodup).
  - constructor; [by rewrite length_fmap|].
    apply Forall_fmap, Forall_forall. intros row Hrow.
    rewrite Forall_forall in Hrest.
    destruct (Hrest row Hrow) as [(fields & -> & _) _].
    simpl. by rewrite !length_fmap.
Qed.

Lemma csv_has_a_row_per_object_two_rows :
  save_to_format
    (answers 200 (VList [ VDict [("ticker", VStr "INJ/USDT"); ("status", VNum 1)];
                          VDict [("ticker", VStr "ATOM/USDT")] ]))
    markets_fetcher "markets.csv" None "csv" no_files =
  (write (lists_directory, "markets.csv")
     (CsvRows [ [VStr "ticker"; VStr "status"];
                [VStr "INJ/USDT"; VNum 1];
                [VStr "ATOM/USDT"; VStr ""] ])
     (makedirs lists_directory no_files),
   None).
Proof.
  refine (proj1 (csv_has_a_row_per_object _ markets_fetcher "markets.csv" None
    no_files [("ticker", VStr "INJ/USDT"); ("status", VNum 1)]
    [ VDict [("ticker", VStr "ATOM/USDT")] ] _ _ _ _ _ _)).
  - reflexivity.
  - apply (bool_decide_unpack _). reflexivity.
  - apply (bool_decide_unpack _). reflexivity.
  - reflexivity.
  - reflexivity.
  - constructor; [|constructor]. split; [|reflexivity].
    exists [("ticker", VStr "ATOM/USDT")]. split; [reflexivity|].
    intros k Hk. apply list_elem_of_singleton in Hk as ->. by left.
Defined.

(** X19. A row that cannot be written ends the export where it stands.
    When the file can be opened, the header can be encoded and the rows
    before that row are written, the exception of the row leaves
    [save_to_format], and the file has been created with the header and the
    rows before that one; the row and the rows after it are not written.
    The exception is [AttributeError] for an element that is no object,
    [ValueError] for an object with a key the first object has not, and
    [UnicodeEncodeError] for an object that fits the header and has a string
    with a lone surrogate in one of its cells.  The first object is such a
    row too, for this last reason only; the cells of an object that is
    written first are its values. *)
Theorem csv_keeps_the_rows_before_a_refused_one
    get self filename save_directory w first rest good bad later e :
  fetch_json get self = Returns (VList (VDict first :: rest)) →
  (directory_or_default save_directory, filename) ∉ refused w →
  NoDup first.*1 →
  forallb encodable first.*1 = true →
  VDict first :: rest = good ++ bad :: later →
  Forall (row_written first.*1) good →
  writerow first.*1 bad = Raises e →
  save_to_format get self filename save_directory "csv" w =
    (write (directory_or_default save_directory, filename)
       (CsvRows ((VStr <$> first.*1) :: (cells_of first.*1 <$> good)))
       (makedirs (directory_or_default save_directory) w),
     Some e)
  ∧ ((e = AttributeError ∧ ∀ fields, bad ≠ VDict fields)
     ∨ (e = ValueError
        ∧ ∃ fields k, bad = VDict fields ∧ k ∈ fields.*1 ∧ k ∉ first.*1)
     ∨ (e = UnicodeEncodeError
        ∧ row_fits first.*1 bad
        ∧ ∃ s, VStr s ∈ cells_of first.*1 bad ∧ encodable s = false))
  ∧ (good = [] → bad = VDict first ∧ e = UnicodeEncodeError)
  ∧ cells_of first.*1 (VDict first) = first.*2.
Proof.
  intros Hfetch Hopen Hnodup Hkeys Hrows Hgood Hbad.
  pose proof (writerow_raises _ _ _ Hbad) as Hcase.
  assert (cells_of first.*1 (VDict first) = first.*2) as Hfirst
    by apply (get_cell_own _ Hnodup).
  split; [|split; [done|split; [|done]]].
  - rewrite (save_to_format_csv _ _ _ _ _ _ Hfetch eq_refl).
    unfold _save_as_csv.
    rewrite bool_decide_eq_false_2 by done. rewrite Hkeys, Hrows.
    rewrite (writerows_fits _ _ _ Hgood). simpl. by rewrite Hbad, app_nil_r.
  - intros ->. injection Hrows as <- _. split; [done|].
    destruct Hcase as [[_ Hno]|[(_ & fields & k & [= <-] & Hin & Hout)|[-> _]]];
      [by destruct (Hno first) | done | done].
Qed.

Lemma csv_keeps_the_rows_before_a_refused_one_three_rows :
  save_to_format (answers 200 three_rows) markets_fetcher "markets.csv" None
    "csv" no_files =
  (write (lists_directory, "markets.csv")
     (CsvRows [ [VStr "ticker"; VStr "status"];
                [VStr "INJ/USDT"; VNum 1];
                [VStr "ATOM/USDT"; VStr ""] ])
     (makedirs lists_directory no_files),
   Some ValueError)
  ∧ save_to_format (answers 200 lone_surrogate_cell) markets_fetcher
      "markets.csv" None "csv" no_files =
    (write (lists_directory, "markets.csv")
       (CsvRows [ [VStr "ticker"; VStr "status"];
                  [VStr "INJ/USDT"; VNum 1] ])
       (makedirs lists_directory no_files),
     Some UnicodeEncodeError).
Proof.
  split.
  - refine (proj1 (csv_keeps_the_rows_before_a_refused_one _ markets_fetcher
      "markets.csv" None no_files
      [("ticker", VStr "INJ/USDT"); ("status", VNum 1)]
      [ VDict [("ticker", VStr "ATOM/USDT")];
        VDict [("ticker", VStr "ETH/USDT"); ("fee", VNum 2)] ]
      [ VDict [("ticker", VStr "INJ/USDT"); ("status", VNum 1)];
        VDict [("ticker", VStr "ATOM/USDT")] ]
      (VDict [("ticker", VStr "ETH/USDT"); ("fee", VNum 2)]) [] ValueError
      _ _ _ _ _ _ _)).
    + reflexivity.
    + apply (bool_decide_unpack _). reflexivity.
    + apply (bool_decide_unpack _). reflexivity.
    + reflexivity.
    + reflexivity.
    + constructor; [|constructor; [|constructor]].
      * split; [|reflexivity]. apply first_row_fits.
      * split; [|reflexivity].
        exists [("ticker", VStr "ATOM/USDT")]. split; [reflexivity|].
        intros k Hk. apply list_elem_of_singleton in Hk as ->. by left.
    + reflexivity.
  - refine (proj1 (csv_keeps_the_rows_before_a_refused_one _ markets_fetcher
      "markets.csv" None no_files
      [("ticker", VStr "INJ/USDT"); ("status", VNum 1)]
      [ VDict [("ticker", VStr lone_surrogate)];
        VDict [("ticker", VStr "ETH/USDT")] ]
      [ VDict [("ticker", VStr "INJ/USDT"); ("status", VNum 1)] ]
      (VDict [("ticker", VStr lone_surrogate)])
      [ VDict [("ticker", VStr "ETH/USDT")] ] UnicodeEncodeError
      _ _ _ _ _ _ _)).
    + reflexivity.
    + apply (bool_decide_unpack _). reflexivity.
    + apply (bool_decide_unpack _). reflexivity.
    + reflexivity.
    + reflexivity.
    + constructor; [|constructor].
      split; [|reflexivity]. apply first_row_fits.
    + reflexivity.
Defined.

(** X21. A CSV file that cannot be opened, or whose header cannot be
    encoded, ends [save_to_format] with an exception before any row is
    written.  For a truthy list that starts with an object, and also for
    any truthy data with the format [json] or [text], the exception of [open]
    leaves the method when the file cannot be opened, and no file is written
    or changed.  When the CSV file can be opened and a key of the first
    object has a lone surrogate, [UnicodeEncodeError] leaves the method and
    the file is left empty. *)
Theorem save_to_format_without_a_writable_file
    get self filename save_directory format w data :
  fetch_json get self = Returns data → truthy data = true →
  let file_path := (directory_or_default save_directory, filename) in
  let created := makedirs (directory_or_default save_directory) w in
  (file_path ∈ refused w →
   format = "json" ∨ format = "text"
   ∨ (format = "csv" ∧ ∃ first rest, data = VList (VDict first :: rest)) →
   save_to_format get self filename save_directory format w =
   (created, Some OSError))
  ∧ (file_path ∉ refused w →
     ∀ first rest, data = VList (VDict first :: rest) →
     forallb encodable first.*1 = false →
     save_to_format get self filename save_directory "csv" w =
     (write file_path (CsvRows []) created, Some UnicodeEncodeError)).
Proof.
  intros Hfetch Htruthy file_path created. split.
  - intros Hrefused Hformat. unfold save_to_format. rewrite Hfetch, Htruthy.
    destruct Hformat as [-> | [-> | (-> & first & rest & ->)]]; simpl;
      by rewrite bool_decide_eq_true_2.
  - intros Hopen first rest -> Hkeys.
    rewrite (save_to_format_csv _ _ _ _ _ _ Hfetch eq_refl).
    unfold _save_as_csv. rewrite bool_decide_eq_false_2 by done.
    by rewrite Hkeys.
Qed.

Lemma save_to_format_without_a_writable_file_csv :
  save_to_format (answers 200 three_rows) markets_fetcher "sub/markets.json"
    None "csv" no_sub_directory =
  (makedirs lists_directory no_sub_directory, Some OSError)
  ∧ save_to_format (answers 200 lone_surrogate_key) markets_fetcher
      "markets.csv" None "csv" no_files =
    (write (lists_directory, "markets.csv") (CsvRows [])
       (makedirs lists_directory no_files),
     Some UnicodeEncodeError).
Proof.
  split.
  - refine (proj1 (save_to_format_without_a_writable_file
      (answers 200 three_rows) markets_fetcher "sub/markets.json" None "csv"
      no_sub_directory three_rows _ _) _ _).
    + reflexivity.
    + reflexivity.
    + apply (bool_decide_unpack _). reflexivity.
    + right. right. split; [reflexivity|]. eexists _, _. reflexivity.
  - refine (proj2 (save_to_format_without_a_writable_file
      (answers 200 lone_surrogate_key) markets_fetcher "markets.csv" None "csv"
      no_files lone_surrogate_key _ _) _ _ _ _ _).
    + reflexivity.
    + reflexivity.
    + apply (bool_decide_unpack _). reflexivity.
    + reflexivity.
    + reflexivity.
Defined.

Lemma writerows_error fieldnames rowdicts e :
  (writerows fieldnames rowdicts).2 = Some e → e ≠ IndexError.
Proof.
  induction rowdicts as [|row rest IH]; simpl; [done|].
  destruct (writerow fieldnames row) as [cells|e'] eqn:Hrow; simpl.
  - by destruct (writerows fieldnames rest).
  - intros [= <-].
    by destruct (writerow_raises _ _ _ Hrow) as [[-> _]|[[-> _]|[-> _]]].
Qed.

(** X20. [_save_as_csv] raises [IndexError] on the empty list, whose first
    element it reads, but no call of a save method raises it: the empty
    list is not truthy, so [save_to_format] reports a failed fetch instead
    of calling [_save_as_csv] with it. *)
Theorem save_methods_never_raise_index_error
    get self filename save_directory format w :
  (save_to_format get self filename save_directory format w).2 ≠ Some IndexError
  ∧ (save_json_to_file get self filename save_directory w).2 ≠ Some IndexError
  ∧ (∀ file_path, _save_as_csv file_path (VList []) w = (w, Some IndexError))
  ∧ (fetch_json get self = Returns (VList []) →
     save_to_format get self filename save_directory format w =
     (makedirs (directory_or_default save_directory) w, None)).
Proof.
  assert (fetch_json get self ≠ Raises IndexError) as Hfetch.
  { by intros He%fetch_json_raises. }
  split; [|split; [|split]].
  - unfold save_to_format.
    destruct (fetch_json get self) as [data|e] eqn:Hf; simpl;
      [|intros [= ->]; by destruct Hfetch].
    destruct (truthy data) eqn:Htruthy; [|done].
    destruct (String.eqb format "json"); [by destruct (bool_decide _)|].
    destruct (String.eqb format "text"); [by destruct (bool_decide _)|].
    destruct (String.eqb format "csv"); [|done].
    destruct data as [|b|n|s|[|[|b|n|s|items|first] rest]|fields]; try done.
    unfold _save_as_csv.
    destruct (bool_decide _); [done|].
    destruct (forallb encodable first.*1); [|done].
    destruct (writerows first.*1 (VDict first :: rest)) as [rows e] eqn:Hrows.
    simpl. intros ->.
    apply (writerows_error first.*1 (VDict first :: rest) IndexError); [|done].
    by rewrite Hrows.
  - unfold save_json_to_file.
    destruct (fetch_json get self) as [data|e] eqn:Hf; simpl;
      [destruct (truthy data); [by destruct (bool_decide _)|done]
      | intros [= ->]; by destruct Hfetch].
  - done.
  - intros Hf. unfold save_to_format. by rewrite Hf.
Qed.

End fetcher.
